(** * Futaba S.bus decoder of the PX4IO firmware ([src/apps/px4io/sbus.c])

    A shallow embedding of the frame synchroniser [sbus_input] and of the
    frame decoder [sbus_decode], followed by the properties of the
    decoder's specification.

    Conventions of the embedding:
    - C unsigned integers are [Z] with the wrap-around written out
      ([wrap32] for [unsigned], [wrap64] for [hrt_abstime], the 64-bit
      microsecond counter of [drv_hrt.h]);
    - the file-scope variables of [sbus.c] are the fields of the record
      [sbus], which every operation takes and returns;
    - arrays are lists read with the total lookup [l !!! i] and written with
      the list insert [<[i:=x]> l]; the frame buffer has 25 elements and the
      decoder matrix 18 rows, so no access of the code falls outside them
      (an access outside a list would read an arbitrary value and write
      nothing);
    - the clock [hrt_absolute_time()] and the serial device behind [read]
      are inputs of [sbus_input]. *)

From stdpp Require Import base numbers list.

Local Open Scope Z_scope.

(** ** Constants and machine arithmetic *)

Definition SBUS_FRAME_SIZE : Z := 25.
Definition SBUS_INPUT_CHANNELS : nat := 18.

Definition wrap32 (x : Z) : Z := x mod 2 ^ 32.
Definition wrap64 (x : Z) : Z := x mod 2 ^ 64.

(** ** Data *)

(** The part of [system_state] (declared in [px4io.h]) that the decoder
    writes. The element type of [rc_channel_data] is declared there too;
    every value that the decoder stores is below 3000 and fits any integer
    type of 16 bits or more, so the elements are plain integers here. *)
Record sys_state := mk_sys_state {
  rc_channels : Z;
  rc_channel_data : list Z;
  rc_channels_timestamp : Z;
  fmu_report_due : bool
}.

(** The file-scope variables of [sbus.c]. *)
Record sbus := mk_sbus {
  last_rx_time : Z;
  last_frame_time : Z;
  frame : list Z;
  partial_frame_count : Z;
  sbus_frame_drops : Z;
  system_state : sys_state
}.

Definition set_rc_channels (n : Z) (y : sys_state) : sys_state :=
  mk_sys_state n (rc_channel_data y) (rc_channels_timestamp y) (fmu_report_due y).

Definition set_last_rx_time (t : Z) (s : sbus) : sbus :=
  mk_sbus t (last_frame_time s) (frame s) (partial_frame_count s)
          (sbus_frame_drops s) (system_state s).

Definition set_last_frame_time (t : Z) (s : sbus) : sbus :=
  mk_sbus (last_rx_time s) t (frame s) (partial_frame_count s)
          (sbus_frame_drops s) (system_state s).

Definition set_frame (f : list Z) (s : sbus) : sbus :=
  mk_sbus (last_rx_time s) (last_frame_time s) f (partial_frame_count s)
          (sbus_frame_drops s) (system_state s).

Definition set_partial_frame_count (n : Z) (s : sbus) : sbus :=
  mk_sbus (last_rx_time s) (last_frame_time s) (frame s) n
          (sbus_frame_drops s) (system_state s).

Definition set_sbus_frame_drops (n : Z) (s : sbus) : sbus :=
  mk_sbus (last_rx_time s) (last_frame_time s) (frame s)
          (partial_frame_count s) n (system_state s).

Definition set_system_state (y : sys_state) (s : sbus) : sbus :=
  mk_sbus (last_rx_time s) (last_frame_time s) (frame s)
          (partial_frame_count s) (sbus_frame_drops s) y.

(** ** The decoder matrix *)

Record sbus_bit_pick := pick {
  byte : Z;
  rshift : Z;
  mask : Z;
  lshift : Z
}.

(** Sixteen rows are initialised; the array is declared with
    [SBUS_INPUT_CHANNELS] rows, so rows 16 and 17 are zero-filled by C. *)
Definition sbus_decoder : list (list sbus_bit_pick) :=
  [ (*  0 *) [pick  0 0 0xff 0; pick  1 0 0x07 8; pick  0 0 0x00  0];
    (*  1 *) [pick  1 3 0x1f 0; pick  2 0 0x3f 5; pick  0 0 0x00  0];
    (*  2 *) [pick  2 6 0x03 0; pick  3 0 0xff 2; pick  4 0 0x01 10];
    (*  3 *) [pick  4 1 0x7f 0; pick  5 0 0x0f 7; pick  0 0 0x00  0];
    (*  4 *) [pick  5 4 0x0f 0; pick  6 0 0x7f 4; pick  0 0 0x00  0];
    (*  5 *) [pick  6 7 0x01 0; pick  7 0 0xff 1; pick  8 0 0x03  9];
    (*  6 *) [pick  8 2 0x3f 0; pick  9 0 0x1f 6; pick  0 0 0x00  0];
    (*  7 *) [pick  9 5 0x07 0; pick 10 0 0xff 3; pick  0 0 0x00  0];
    (*  8 *) [pick 11 0 0xff 0; pick 12 0 0x07 8; pick  0 0 0x00  0];
    (*  9 *) [pick 12 3 0x1f 0; pick 13 0 0x3f 5; pick  0 0 0x00  0];
    (* 10 *) [pick 13 6 0x03 0; pick 14 0 0xff 2; pick 15 0 0x01 10];
    (* 11 *) [pick 15 1 0x7f 0; pick 16 0 0x0f 7; pick  0 0 0x00  0];
    (* 12 *) [pick 16 4 0x0f 0; pick 17 0 0x7f 4; pick  0 0 0x00  0];
    (* 13 *) [pick 17 7 0x01 0; pick 18 0 0xff 1; pick 19 0 0x03  9];
    (* 14 *) [pick 19 2 0x3f 0; pick 20 0 0x1f 6; pick  0 0 0x00  0];
    (* 15 *) [pick 20 5 0x07 0; pick 21 0 0xff 3; pick  0 0 0x00  0];
    (* 16 *) [pick  0 0 0x00 0; pick  0 0 0x00 0; pick  0 0 0x00  0];
    (* 17 *) [pick  0 0 0x00 0; pick  0 0 0x00 0; pick  0 0 0x00  0] ].

(** ** The frame decoder, [sbus_decode] *)

(** One pass of the [pick] loop body (lines 234-237): the piece that a
    matrix entry extracts from the frame [f]. *)
Definition sbus_piece (f : list Z) (decode : sbus_bit_pick) : Z :=
  let piece := f !!! Z.to_nat (1 + byte decode) in
  let piece := Z.shiftr piece (rshift decode) in
  let piece := Z.land piece (mask decode) in
  wrap32 (Z.shiftl piece (lshift decode)).

(** The [pick] loop (lines 228-241): the raw value of one channel. *)
Definition sbus_value (f : list Z) (channel : nat) : Z :=
  fold_left
    (fun value decode =>
       if bool_decide (mask decode ≠ 0)
       then Z.lor value (sbus_piece f decode)
       else value)
    (sbus_decoder !!! channel) 0.

Section Decoder.

(** [PX4IO_INPUT_CHANNELS] comes from [protocol.h]; it is also the length
    of the array [system_state.rc_channel_data]. *)
Variable PX4IO_INPUT_CHANNELS : nat.

Definition chancount : nat :=
  if (SBUS_INPUT_CHANNELS <? PX4IO_INPUT_CHANNELS)%nat
  then SBUS_INPUT_CHANNELS else PX4IO_INPUT_CHANNELS.

(** The [channel] loop (lines 227-245). The raw value is unsigned, so
    C's truncating division is the floor division of [Z]. *)
Definition sbus_matrix_channels (f : list Z) (data : list Z) : list Z :=
  fold_left
    (fun data channel => <[channel := sbus_value f channel / 2 + 998]> data)
    (seq 0 chancount) data.

(** The switch channels (lines 248-253). *)
Definition sbus_switch_channels (f : list Z) (data : list Z) : list Z :=
  if (17 <? chancount)%nat then
    let data := <[16%nat := Z.land (f !!! 23%nat) (Z.shiftl 1 0) * 1000 + 998]> data in
    <[17%nat := Z.land (f !!! 23%nat) (Z.shiftl 1 1) * 1000 + 998]> data
  else data.

Definition sbus_decode (frame_time : Z) (s : sbus) : sbus :=
  let f := frame s in
  if bool_decide (f !!! 0%nat ≠ 0x0f) || bool_decide (f !!! 24%nat ≠ 0x00) then
    set_sbus_frame_drops (wrap32 (sbus_frame_drops s + 1)) s
  else if bool_decide (Z.land (f !!! 23%nat) (Z.shiftl 1 2) ≠ 0)
          && bool_decide (Z.land (f !!! 23%nat) (Z.shiftl 1 3) ≠ 0) then
    set_system_state (set_rc_channels 0 (system_state s)) s
  else
    let s := set_last_frame_time frame_time s in
    let data := sbus_matrix_channels f (rc_channel_data (system_state s)) in
    let data := sbus_switch_channels f data in
    set_system_state (mk_sys_state (Z.of_nat chancount) data frame_time true) s.

End Decoder.

(** ** The frame synchroniser, [sbus_input] *)

(** What the serial device holds when [read] is called: an error, or the
    bytes that are pending (possibly none). *)
Inductive device :=
  | ReadError
  | ReadData (pending : list Z).

(** [read(fd, &buf[off], count)]: the return value and the buffer after the
    call. A failed call returns -1; otherwise at most [count] of the pending
    bytes are stored from offset [off] and their number is returned. *)
Definition read (dev : device) (buf : list Z) (off : nat) (count : Z)
  : Z * list Z :=
  match dev with
  | ReadError => (-1, buf)
  | ReadData pending =>
      let got := take (Z.to_nat count) pending in
      (Z.of_nat (length got), list_inserts off got buf)
  end.

(** Lines 122-127: a partial frame is abandoned after a gap of more than
    3ms. *)
Definition sbus_input_gap (now : Z) (s : sbus) : sbus :=
  if bool_decide (3000 < wrap64 (now - last_rx_time s)) then
    if bool_decide (0 < partial_frame_count s) then
      set_partial_frame_count 0
        (set_sbus_frame_drops (wrap32 (sbus_frame_drops s + 1)) s)
    else s
  else s.

(** Lines 133-150: fetch bytes and add them to the current frame. The
    boolean tells whether control falls through to the call of
    [sbus_decode] (line 156) rather than jumping to [out]. *)
Definition sbus_input_fetch (now : Z) (dev : device) (s : sbus) : sbus * bool :=
  let '(ret, buf) :=
    read dev (frame s) (Z.to_nat (partial_frame_count s))
         (wrap32 (SBUS_FRAME_SIZE - partial_frame_count s)) in
  let s := set_frame buf s in
  if bool_decide (ret < 1) then (s, false)
  else
    let s := set_last_rx_time now s in
    let s := set_partial_frame_count (wrap32 (partial_frame_count s + ret)) s in
    if bool_decide (partial_frame_count s < SBUS_FRAME_SIZE) then (s, false)
    else (s, true).

Section Input.

Variable PX4IO_INPUT_CHANNELS : nat.

(** [sbus_input] with the clock reading [now] and the device [dev]: the
    variables after the call and the returned lock status. *)
Definition sbus_input (now : Z) (dev : device) (s : sbus) : sbus * bool :=
  let s := sbus_input_gap now s in
  let '(s, full) := sbus_input_fetch now dev s in
  let s :=
    if full
    then set_partial_frame_count 0 (sbus_decode PX4IO_INPUT_CHANNELS now s)
    else s in
  (s, bool_decide (wrap64 (now - last_frame_time s) < 200000)).

(** A session: successive calls, each with its clock reading and device
    contents; the lock status of every call is collected. *)
Fixpoint sbus_run (calls : list (Z * device)) (s : sbus) : sbus * list bool :=
  match calls with
  | [] => (s, [])
  | (now, dev) :: calls =>
      let '(s, locked) := sbus_input now dev s in
      let '(s, out) := sbus_run calls s in
      (s, locked :: out)
  end.

End Input.

(** The variables as C initialises them, for an [rc_channel_data] array of
    [n] elements, and the decoder part of [sbus_init]. *)
Definition sbus_start (n : nat) : sbus :=
  mk_sbus 0 0 (replicate 25 0) 0 0 (mk_sys_state 0 (replicate n 0) 0 false).

Definition sbus_init (now : Z) (s : sbus) : sbus :=
  set_last_rx_time now (set_partial_frame_count 0 s).

(** ** Vocabulary of the specification *)

(** The two checks of [sbus_decode] read off a frame: the boundary markers,
    and the failsafe bits of the flag byte named bit by bit. *)
Definition markers_ok (f : list Z) : Prop :=
  f !!! 0%nat = 0x0f ∧ f !!! 24%nat = 0x00.

Definition signal_lost (f : list Z) : bool := Z.testbit (f !!! 23%nat) 2.
Definition failsafe (f : list Z) : bool := Z.testbit (f !!! 23%nat) 3.

(** A frame that [sbus_decode] accepts as valid R/C data. *)
Definition frame_valid (f : list Z) : bool :=
  bool_decide (f !!! 0%nat = 0x0f) && bool_decide (f !!! 24%nat = 0x00)
  && negb (signal_lost f && failsafe f).

(** The outcome of a connection-loss frame: only the channel count changes,
    to zero. *)
Definition connection_lost (s s' : sbus) : Prop :=
  s' = set_system_state (set_rc_channels 0 (system_state s)) s.

(** The value that a decoded frame [f] gives channel [i], when
    [chancount] channels are decoded. *)
Definition sbus_channel (chancount : nat) (f : list Z) (i : nat) : Z :=
  if (17 <? chancount)%nat && (i =? 16)%nat then
    Z.land (f !!! 23%nat) 1 * 1000 + 998
  else if (17 <? chancount)%nat && (i =? 17)%nat then
    Z.land (f !!! 23%nat) 2 * 1000 + 998
  else sbus_value f i / 2 + 998.

(** The outcome of a normally decoded frame: the good-frame time, the
    channel count, the channel data, their time stamp and the report flag
    are set; the synchroniser's own variables are not touched. *)
Definition decoded (chancount : nat) (frame_time : Z) (s s' : sbus) : Prop :=
  last_frame_time s' = frame_time
  ∧ rc_channels (system_state s') = Z.of_nat chancount
  ∧ rc_channels_timestamp (system_state s') = frame_time
  ∧ fmu_report_due (system_state s') = true
  ∧ length (rc_channel_data (system_state s'))
    = length (rc_channel_data (system_state s))
  ∧ (∀ i, (i < chancount)%nat →
          (i < length (rc_channel_data (system_state s)))%nat →
          rc_channel_data (system_state s') !! i
          = Some (sbus_channel chancount (frame s) i))
  ∧ (∀ i, (chancount ≤ i)%nat →
          rc_channel_data (system_state s') !! i
          = rc_channel_data (system_state s) !! i)
  ∧ frame s' = frame s
  ∧ sbus_frame_drops s' = sbus_frame_drops s
  ∧ partial_frame_count s' = partial_frame_count s
  ∧ last_rx_time s' = last_rx_time s.

(** *** A synthetic encoder

    S.bus packs sixteen 11-bit channels, least significant bit first, into
    the contiguous 176-bit field of frame bytes 1..22. [sbus_pack] is that
    field as one number, channel [i] at bit [11 * i]; [sbus_encode] cuts it
    into bytes and adds the markers and a clear flag byte. *)
Definition sbus_pack (values : list Z) : Z :=
  foldr (λ v acc, v + 2 ^ 11 * acc) 0 values.

Definition sbus_encode (values : list Z) : list Z :=
  [0x0f]
  ++ map (λ j, Z.shiftr (sbus_pack values) (8 * Z.of_nat j) mod 256) (seq 0 22)
  ++ [0x00; 0x00].

(** The position in the 176-bit field of the bit that a matrix entry moves
    to bit [n] of the channel value, if it moves one there. *)
Definition pick_source (n : Z) (p : sbus_bit_pick) : option Z :=
  if bool_decide (mask p ≠ 0) && (n <? 32) && (lshift p <=? n)
     && Z.testbit (mask p) (n - lshift p) && (n - lshift p + rshift p <? 8)
  then Some (8 * byte p + (n - lshift p + rshift p))
  else None.

(** The bits of the channel value that a matrix entry can set. *)
Definition pick_bits (p : sbus_bit_pick) : Z := Z.shiftl (mask p) (lshift p).

(** The entries of a matrix row set pairwise disjoint bits, all among bits
    0..10. *)
Fixpoint disjoint_picks (row : list sbus_bit_pick) : bool :=
  match row with
  | [] => true
  | p :: row =>
      forallb (λ q, Z.land (pick_bits p) (pick_bits q) =? 0) row
      && disjoint_picks row
  end.

Definition row_in_11_bits (row : list sbus_bit_pick) : bool :=
  forallb (λ p, (0 <=? mask p) && (0 <=? lshift p) && (pick_bits p <? 2 ^ 11)) row.

(** The entries of a matrix row read bytes of the 176-bit field only. *)
Definition entries_in_field (row : list sbus_bit_pick) : bool :=
  forallb (λ p, (0 <=? byte p) && (byte p <? 22) && (0 <=? rshift p)) row.

(** *** Sessions *)

Section Session.

Variable PX4IO_INPUT_CHANNELS : nat.

(** Whether a call of [sbus_input] completes a frame and [sbus_decode]
    accepts it. *)
Definition sbus_input_decodes (now : Z) (dev : device) (s : sbus) : bool :=
  let '(s, full) := sbus_input_fetch now dev (sbus_input_gap now s) in
  full && frame_valid (frame s).

(** The clock reading of the most recent call of a session that decoded a
    valid frame, [acc] when there is none. *)
Fixpoint sbus_last_good (calls : list (Z * device)) (s : sbus)
         (acc : option Z) : option Z :=
  match calls with
  | [] => acc
  | (now, dev) :: calls =>
      sbus_last_good calls (sbus_input PX4IO_INPUT_CHANNELS now dev s).1
        (if sbus_input_decodes now dev s then Some now else acc)
  end.

End Session.

(** A frame that arrives in pieces: each piece is the clock reading of a
    call and the bytes that the call finds pending. [calls_of] turns the
    pieces into calls; [in_time prev pieces] says that no piece comes more
    than 3ms after the one before, [prev] being the time of the last byte
    received before the first piece; [arrival] is the time of the last
    piece. *)
Definition calls_of (pieces : list (Z * list Z)) : list (Z * device) :=
  map (λ c, (c.1, ReadData c.2)) pieces.

Fixpoint in_time (prev : Z) (pieces : list (Z * list Z)) : Prop :=
  match pieces with
  | [] => True
  | (now, _) :: pieces => wrap64 (now - prev) ≤ 3000 ∧ in_time now pieces
  end.

Fixpoint arrival (prev : Z) (pieces : list (Z * list Z)) : Z :=
  match pieces with
  | [] => prev
  | (now, _) :: pieces => arrival now pieces
  end.

(** Two sets of variables that differ at most in the part of the frame
    buffer that has not been received yet. *)
Definition same_received (s1 s2 : sbus) : Prop :=
  last_rx_time s1 = last_rx_time s2
  ∧ last_frame_time s1 = last_frame_time s2
  ∧ partial_frame_count s1 = partial_frame_count s2
  ∧ sbus_frame_drops s1 = sbus_frame_drops s2
  ∧ system_state s1 = system_state s2
  ∧ length (frame s1) = 25%nat ∧ length (frame s2) = 25%nat
  ∧ 0 ≤ partial_frame_count s1 ≤ 25
  ∧ take (Z.to_nat (partial_frame_count s1)) (frame s1)
    = take (Z.to_nat (partial_frame_count s1)) (frame s2).

(** *** Sample inputs

    The frame of the end-to-end scenario, channel 0 carrying 1024, with a
    chosen flag byte; a frame whose sixteen channels all carry [v]; and the
    variables in front of a call of [sbus_decode] on a given frame. *)
Definition scenario_frame (flags : Z) : list Z :=
  [0x0f; 0x00; 0x04] ++ replicate 20 0 ++ [flags; 0x00].

Definition uniform_frame (v : Z) : list Z := sbus_encode (replicate 16 v).

Definition holding (n : nat) (f : list Z) : sbus :=
  mk_sbus 0 0 f 25 0 (mk_sys_state 0 (replicate n 0) 0 false).

(** *** The payload of a frame

    A frame as the receiver holds it, 25 bytes; bytes 1..22 of a frame read
    as one little-endian number and its sixteen 11-bit slices; and the
    sixteen raw channel values that the decoder matrix extracts from a
    frame. *)
Definition is_frame (f : list Z) : Prop :=
  length f = 25%nat ∧ Forall (λ b, 0 ≤ b ≤ 255) f.

Definition sbus_field (f : list Z) : Z :=
  foldr (λ b acc, b + 2 ^ 8 * acc) 0 (take 22 (drop 1 f)).

Definition sbus_slices (f : list Z) : list Z :=
  map (λ i : nat, Z.shiftr (sbus_field f) (11 * Z.of_nat i) mod 2 ^ 11)
      (seq 0 16).

Definition sbus_raws (f : list Z) : list Z := map (sbus_value f) (seq 0 16).

(** *** Opening the device

    [sbus_init] as a whole (lines 71-97): [fd] is [sbus_fd] before the call
    and [opened] what [open] returns if it is called; setting the line to
    100000bps, even parity and two stop bits acts on the device only. The
    result is the returned [sbus_fd] and the variables after the call. *)
Definition sbus_init_device (fd opened now : Z) (s : sbus) : Z * sbus :=
  let fd := if fd <? 0 then opened else fd in
  if 0 <=? fd then (fd, sbus_init now s) else (fd, s).

(** * Properties *)

(** ** Record plumbing *)

Lemma sbus_eq (s1 s2 : sbus) :
  last_rx_time s1 = last_rx_time s2 →
  last_frame_time s1 = last_frame_time s2 →
  frame s1 = frame s2 →
  partial_frame_count s1 = partial_frame_count s2 →
  sbus_frame_drops s1 = sbus_frame_drops s2 →
  system_state s1 = system_state s2 →
  s1 = s2.
Proof. destruct s1, s2; simpl; intros; subst; reflexivity. Qed.

(** ** The channel loops *)

Section Channels.

Variable PX4IO_INPUT_CHANNELS : nat.
Local Abbreviation nchan := (chancount PX4IO_INPUT_CHANNELS).

Lemma chancount_le : (nchan ≤ 18)%nat.
Proof.
  unfold chancount, SBUS_INPUT_CHANNELS.
  destruct (Nat.ltb_spec 18 PX4IO_INPUT_CHANNELS); lia.
Qed.

Lemma chancount_le_supported : (nchan ≤ PX4IO_INPUT_CHANNELS)%nat.
Proof.
  unfold chancount, SBUS_INPUT_CHANNELS.
  destruct (Nat.ltb_spec 18 PX4IO_INPUT_CHANNELS); lia.
Qed.

(** A loop that stores [g c] at every index [c] of [cs]. *)
Lemma store_loop_lookup (g : nat → Z) (cs : list nat) (data : list Z) (i : nat) :
  fold_left (λ data c, <[c := g c]> data) cs data !! i
  = if bool_decide (i ∈ cs ∧ (i < length data)%nat) then Some (g i)
    else data !! i.
Proof.
  revert data. induction cs as [|c cs IH]; intros data; cbn [fold_left].
  - rewrite bool_decide_eq_false_2; [done|]. intros [H _]. inversion H.
  - rewrite IH, length_insert.
    destruct (decide (i ∈ cs ∧ (i < length data)%nat)) as [Hin|Hnin].
    + rewrite !bool_decide_eq_true_2; [done| |done].
      split; [right|]; apply Hin.
    + rewrite (bool_decide_eq_false_2 _ Hnin).
      destruct (decide (c = i)) as [->|Hne].
      * destruct (decide (i < length data)%nat) as [Hlt|Hge].
        -- rewrite list_lookup_insert_eq by done.
           rewrite bool_decide_eq_true_2; [done|]. split; [left|done].
        -- rewrite list_insert_ge by lia.
           rewrite bool_decide_eq_false_2; [done|]. tauto.
      * rewrite list_lookup_insert_ne by done.
        rewrite bool_decide_eq_false_2; [done|].
        intros [Hin ?]. apply Hnin. split; [|done].
        inversion Hin; subst; done.
Qed.

Lemma store_loop_length (g : nat → Z) (cs : list nat) (data : list Z) :
  length (fold_left (λ data c, <[c := g c]> data) cs data) = length data.
Proof.
  revert data. induction cs as [|c cs IH]; intros data; simpl; [done|].
  by rewrite IH, length_insert.
Qed.

Lemma sbus_matrix_channels_length f data :
  length (sbus_matrix_channels PX4IO_INPUT_CHANNELS f data) = length data.
Proof. apply store_loop_length. Qed.

Lemma sbus_matrix_channels_lookup f data i :
  (i < nchan)%nat → (i < length data)%nat →
  sbus_matrix_channels PX4IO_INPUT_CHANNELS f data !! i
  = Some (sbus_value f i / 2 + 998).
Proof.
  intros Hi Hlen. unfold sbus_matrix_channels.
  rewrite (store_loop_lookup (λ c, sbus_value f c / 2 + 998)).
  rewrite bool_decide_eq_true_2; [done|].
  split; [|done]. apply elem_of_seq. lia.
Qed.

Lemma sbus_matrix_channels_lookup_ge f data i :
  (nchan ≤ i)%nat →
  sbus_matrix_channels PX4IO_INPUT_CHANNELS f data !! i = data !! i.
Proof.
  intros Hi. unfold sbus_matrix_channels.
  rewrite (store_loop_lookup (λ c, sbus_value f c / 2 + 998)).
  rewrite bool_decide_eq_false_2; [done|].
  intros [Hin _]. apply elem_of_seq in Hin. lia.
Qed.

Lemma sbus_switch_channels_length f data :
  length (sbus_switch_channels PX4IO_INPUT_CHANNELS f data) = length data.
Proof.
  unfold sbus_switch_channels. case_match; [|done].
  by rewrite !length_insert.
Qed.

(** The channel data after both loops. *)
Lemma sbus_channels_lookup f data i :
  (i < nchan)%nat → (i < length data)%nat →
  sbus_switch_channels PX4IO_INPUT_CHANNELS f
    (sbus_matrix_channels PX4IO_INPUT_CHANNELS f data) !! i
  = Some (sbus_channel nchan f i).
Proof.
  intros Hi Hlen. unfold sbus_switch_channels, sbus_channel.
  pose proof (sbus_matrix_channels_length f data) as Hl.
  destruct (17 <? nchan)%nat eqn:Hsw; simpl.
  - destruct (Nat.eqb_spec i 16) as [->|H16].
    + rewrite list_lookup_insert_ne by lia.
      rewrite list_lookup_insert_eq by lia. done.
    + destruct (Nat.eqb_spec i 17) as [->|H17].
      * rewrite list_lookup_insert_eq by (rewrite length_insert; lia). done.
      * rewrite !list_lookup_insert_ne by lia.
        by apply sbus_matrix_channels_lookup.
  - by apply sbus_matrix_channels_lookup.
Qed.

Lemma sbus_channels_lookup_ge f data i :
  (nchan ≤ i)%nat →
  sbus_switch_channels PX4IO_INPUT_CHANNELS f
    (sbus_matrix_channels PX4IO_INPUT_CHANNELS f data) !! i
  = data !! i.
Proof.
  intros Hi. unfold sbus_switch_channels.
  destruct (Nat.ltb_spec 17 nchan).
  - rewrite !list_lookup_insert_ne by lia.
    by apply sbus_matrix_channels_lookup_ge.
  - by apply sbus_matrix_channels_lookup_ge.
Qed.

End Channels.

(** ** Bits *)

Lemma testbit_flag (x k : Z) :
  0 ≤ k → Z.land x (Z.shiftl 1 k) = if Z.testbit x k then 2 ^ k else 0.
Proof.
  intros Hk. apply Z.bits_inj'. intros n Hn.
  rewrite Z.land_spec, Z.shiftl_1_l, Z.pow2_bits_eqb by done.
  destruct (Z.eqb_spec k n) as [->|Hne].
  - destruct (Z.testbit x n) eqn:Hx; simpl.
    + by rewrite Z.pow2_bits_eqb, Z.eqb_refl.
    + by rewrite Z.bits_0.
  - rewrite andb_false_r. destruct (Z.testbit x k).
    + rewrite Z.pow2_bits_eqb by done. symmetry. by apply Z.eqb_neq.
    + by rewrite Z.bits_0.
Qed.

Lemma flag_set (x k : Z) :
  0 ≤ k → bool_decide (Z.land x (Z.shiftl 1 k) ≠ 0) = Z.testbit x k.
Proof.
  intros Hk. rewrite testbit_flag by done.
  assert (0 < 2 ^ k) by (apply Z.pow_pos_nonneg; lia).
  destruct (Z.testbit x k).
  - apply bool_decide_eq_true_2. lia.
  - apply bool_decide_eq_false_2. lia.
Qed.

(** A number whose bits from [k] on are clear is below [2 ^ k]. *)
Lemma bits_clear_bound (v k : Z) :
  0 ≤ k → (∀ n, k ≤ n → Z.testbit v n = false) → 0 ≤ v < 2 ^ k.
Proof.
  intros Hk Hhigh.
  assert (v = v mod 2 ^ k) as ->.
  { apply Z.bits_inj'. intros n Hn. rewrite Z.testbit_mod_pow2 by done.
    destruct (Z.ltb_spec n k); simpl; [done|]. by apply Hhigh. }
  apply Z.mod_pos_bound, Z.pow_pos_nonneg; lia.
Qed.

Lemma bits_of_bounded (v k n : Z) :
  0 ≤ v < 2 ^ k → k ≤ n → Z.testbit v n = false.
Proof.
  intros Hv Hn. destruct (decide (0 ≤ k)) as [Hk|Hk].
  - rewrite <- (Z.mod_small v (2 ^ k)) by done.
    apply Z.mod_pow2_bits_high. lia.
  - rewrite Z.pow_neg_r in Hv by lia. lia.
Qed.

(** The bits of the piece that one matrix entry extracts. *)
Lemma sbus_piece_testbit (f : list Z) (p : sbus_bit_pick) (n : Z) :
  0 ≤ n →
  Z.testbit (sbus_piece f p) n
  = (n <? 32) && (lshift p <=? n) && Z.testbit (mask p) (n - lshift p)
    && Z.testbit (f !!! Z.to_nat (1 + byte p)) (n - lshift p + rshift p).
Proof.
  intros Hn. unfold sbus_piece, wrap32.
  rewrite Z.testbit_mod_pow2, Z.shiftl_spec by lia.
  destruct (Z.leb_spec (lshift p) n) as [Hl|Hl].
  - rewrite Z.land_spec, Z.shiftr_spec by lia.
    rewrite andb_true_r. by rewrite (andb_comm (Z.testbit (_ !!! _) _)), andb_assoc.
  - rewrite (Z.testbit_neg_r _ (n - lshift p)) by lia.
    by rewrite andb_false_r.
Qed.

(** The bits of a channel's raw value: those that some entry of its row
    contributes. *)
Lemma pick_loop_testbit (f : list Z) (row : list sbus_bit_pick) (acc n : Z) :
  Z.testbit
    (fold_left
       (λ value decode,
          if bool_decide (mask decode ≠ 0)
          then Z.lor value (sbus_piece f decode) else value)
       row acc) n
  = Z.testbit acc n
    || existsb (λ p, bool_decide (mask p ≠ 0) && Z.testbit (sbus_piece f p) n) row.
Proof.
  revert acc. induction row as [|p row IH]; intros acc; cbn [fold_left existsb].
  - by rewrite orb_false_r.
  - rewrite IH. destruct (bool_decide (mask p ≠ 0)); cbn [andb orb].
    + by rewrite Z.lor_spec, orb_assoc.
    + done.
Qed.

Lemma sbus_value_testbit (f : list Z) (i : nat) (n : Z) :
  Z.testbit (sbus_value f i) n
  = existsb (λ p, bool_decide (mask p ≠ 0) && Z.testbit (sbus_piece f p) n)
            (sbus_decoder !!! i).
Proof. unfold sbus_value. by rewrite pick_loop_testbit, Z.bits_0. Qed.

(** ** The decoder matrix stays within eleven bits *)

Lemma sbus_decoder_rows (i : nat) :
  (i < 18)%nat → ∃ row, sbus_decoder !! i = Some row ∧ sbus_decoder !!! i = row.
Proof.
  intros Hi. destruct (sbus_decoder !! i) as [row|] eqn:Hrow.
  - exists row. split; [done|]. by apply list_lookup_total_correct.
  - apply lookup_ge_None in Hrow. simpl in Hrow. lia.
Qed.

Lemma sbus_decoder_in_11_bits :
  Forall (λ row, row_in_11_bits row = true) sbus_decoder.
Proof. repeat constructor. Qed.

Lemma sbus_decoder_disjoint :
  Forall (λ row, disjoint_picks row = true) sbus_decoder.
Proof. repeat constructor. Qed.

Lemma pick_in_11_bits (f : list Z) (p : sbus_bit_pick) (n : Z) :
  0 ≤ mask p → 0 ≤ lshift p → pick_bits p < 2 ^ 11 → 11 ≤ n →
  Z.testbit (sbus_piece f p) n = false.
Proof.
  intros Hm Hl Hb Hn. rewrite sbus_piece_testbit by lia.
  assert (Z.testbit (pick_bits p) n = false) as Hbit.
  { apply (bits_of_bounded _ 11); [|done]. split; [|done].
    unfold pick_bits. apply Z.shiftl_nonneg. done. }
  unfold pick_bits in Hbit. rewrite Z.shiftl_spec in Hbit by lia.
  rewrite Hbit. by rewrite andb_false_r.
Qed.

(** Every raw channel value is an 11-bit number, whatever the frame. *)
Lemma sbus_value_bound (f : list Z) (i : nat) :
  (i < 18)%nat → 0 ≤ sbus_value f i < 2 ^ 11.
Proof.
  intros Hi. apply bits_clear_bound; [done|]. intros n Hn.
  rewrite sbus_value_testbit.
  destruct (sbus_decoder_rows i Hi) as (row & Hrow & ->).
  pose proof (proj1 (Forall_lookup _ _) sbus_decoder_in_11_bits i row Hrow) as Hok.
  simpl in Hok. unfold row_in_11_bits in Hok.
  rewrite forallb_forall in Hok.
  apply not_true_is_false. intros Hex.
  apply existsb_exists in Hex as (p & Hp & Hbit).
  apply andb_prop in Hbit as [_ Hbit].
  specialize (Hok p Hp).
  apply andb_prop in Hok as [Hok Hb]. apply andb_prop in Hok as [Hm Hl].
  rewrite pick_in_11_bits in Hbit; [done|lia..].
Qed.

(** The zero-filled rows give the raw value 0. *)
Lemma sbus_value_zero_rows (f : list Z) (i : nat) :
  (16 ≤ i)%nat → sbus_value f i = 0.
Proof.
  intros Hi. unfold sbus_value.
  destruct i as [|[|[|[|[|[|[|[|[|[|[|[|[|[|[|[|[|[|i]]]]]]]]]]]]]]]]]];
    try lia; reflexivity.
Qed.

(** ** The three outcomes of [sbus_decode] *)

Section Decode.

Variable PX4IO_INPUT_CHANNELS : nat.
Local Abbreviation nchan := (chancount PX4IO_INPUT_CHANNELS).
Local Abbreviation decode := (sbus_decode PX4IO_INPUT_CHANNELS).

Lemma markers_ok_test (f : list Z) :
  bool_decide (f !!! 0%nat ≠ 0x0f) || bool_decide (f !!! 24%nat ≠ 0x00) = false
  ↔ markers_ok f.
Proof.
  unfold markers_ok. rewrite orb_false_iff, !bool_decide_eq_false.
  split; intros [H0 H24]; split;
    first [by apply dec_stable | by intros ?].
Qed.

Lemma failsafe_test (f : list Z) :
  bool_decide (Z.land (f !!! 23%nat) (Z.shiftl 1 2) ≠ 0)
  && bool_decide (Z.land (f !!! 23%nat) (Z.shiftl 1 3) ≠ 0)
  = signal_lost f && failsafe f.
Proof. unfold signal_lost, failsafe. by rewrite !flag_set. Qed.

Lemma sbus_decode_dropped (t : Z) (s : sbus) :
  ¬ markers_ok (frame s) →
  decode t s = set_sbus_frame_drops (wrap32 (sbus_frame_drops s + 1)) s.
Proof.
  intros Hbad. unfold sbus_decode.
  destruct (bool_decide _ || bool_decide _) eqn:Htest; [done|].
  by apply markers_ok_test in Htest.
Qed.

Lemma sbus_decode_lost (t : Z) (s : sbus) :
  markers_ok (frame s) → signal_lost (frame s) && failsafe (frame s) = true →
  connection_lost s (decode t s).
Proof.
  intros Hok Hfs. unfold connection_lost, sbus_decode.
  apply markers_ok_test in Hok. cbv zeta. rewrite Hok, failsafe_test, Hfs. done.
Qed.

Lemma sbus_decode_decoded (t : Z) (s : sbus) :
  markers_ok (frame s) → signal_lost (frame s) && failsafe (frame s) = false →
  decoded nchan t s (decode t s).
Proof.
  intros Hok Hfs. unfold sbus_decode.
  apply markers_ok_test in Hok. cbv zeta. rewrite Hok, failsafe_test, Hfs.
  unfold decoded; simpl.
  rewrite sbus_switch_channels_length, sbus_matrix_channels_length.
  repeat split; try done.
  - intros i Hi Hlen. by apply sbus_channels_lookup.
  - intros i Hi. by apply sbus_channels_lookup_ge.
Qed.

Lemma sbus_decode_frame_valid (t : Z) (s : sbus) :
  last_frame_time (decode t s)
  = if frame_valid (frame s) then t else last_frame_time s.
Proof.
  unfold frame_valid.
  destruct (decide (markers_ok (frame s))) as [Hok|Hbad].
  - destruct (Hok) as [-> ->]. simpl.
    destruct (signal_lost (frame s) && failsafe (frame s)) eqn:Hfs; simpl.
    + by rewrite (sbus_decode_lost t s Hok Hfs).
    + apply (sbus_decode_decoded t s Hok Hfs).
  - rewrite sbus_decode_dropped by done.
    destruct (bool_decide (frame s !!! 0%nat = 15)) eqn:H0;
      destruct (bool_decide (frame s !!! 24%nat = 0)) eqn:H24; simpl; try done.
    apply bool_decide_eq_true in H0, H24. by destruct Hbad.
Qed.

(** ** The range of the channel values *)

Lemma sbus_matrix_value_range (f : list Z) (i : nat) :
  (i < 18)%nat → 998 ≤ sbus_value f i / 2 + 998 ≤ 2021.
Proof.
  intros Hi. pose proof (sbus_value_bound f i Hi) as Hv.
  change (2 ^ 11) with 2048 in Hv.
  generalize dependent (sbus_value f i). intros v Hv.
  pose proof (Z.div_mod v 2). pose proof (Z.mod_pos_bound v 2). lia.
Qed.

Lemma switch_17_value (x : Z) :
  Z.land x 1 * 1000 + 998 = if Z.testbit x 0 then 1998 else 998.
Proof.
  change 1 with (Z.shiftl 1 0) at 1. rewrite testbit_flag by done.
  by destruct (Z.testbit x 0).
Qed.

Lemma switch_18_value (x : Z) :
  Z.land x 2 * 1000 + 998 = if Z.testbit x 1 then 2998 else 998.
Proof.
  change 2 with (Z.shiftl 1 1) at 1. rewrite testbit_flag by done.
  by destruct (Z.testbit x 1).
Qed.

Lemma sbus_channel_range (f : list Z) (i : nat) :
  (i < nchan)%nat → i ≠ 17%nat → 998 ≤ sbus_channel nchan f i ≤ 2021.
Proof.
  intros Hi H17. pose proof (chancount_le PX4IO_INPUT_CHANNELS) as Hle.
  unfold sbus_channel.
  destruct (17 <? nchan)%nat; simpl.
  - destruct (Nat.eqb_spec i 16).
    + rewrite switch_17_value. destruct (Z.testbit _ 0); lia.
    + destruct (Nat.eqb_spec i 17); [done|].
      apply sbus_matrix_value_range. lia.
  - apply sbus_matrix_value_range. lia.
Qed.

End Decode.

(** ** The bit layout: the decoder matrix against the encoder *)

Lemma sbus_pack_channel (values : list Z) (i : nat) :
  Forall (λ v, 0 ≤ v < 2 ^ 11) values → (i < length values)%nat →
  Z.shiftr (sbus_pack values) (11 * Z.of_nat i) mod 2 ^ 11 = values !!! i.
Proof.
  intros Hvalues. revert i.
  induction Hvalues as [|v values Hv _ IH]; intros i Hi; cbn [length] in Hi.
  - lia.
  - cbn [sbus_pack foldr]. fold (sbus_pack values).
    destruct i as [|i].
    + rewrite Z.shiftr_0_r. cbn [lookup_total list_lookup_total].
      rewrite (Z.mul_comm (2 ^ 11)), Z.mod_add by lia. by apply Z.mod_small.
    + cbn [lookup_total list_lookup_total].
      change (list_lookup_total i values) with (values !!! i).
      rewrite <- IH by lia.
      replace (11 * Z.of_nat (S i)) with (11 + 11 * Z.of_nat i) by lia.
      rewrite <- Z.shiftr_shiftr by lia. f_equal. f_equal.
      rewrite Z.shiftr_div_pow2 by lia.
      rewrite (Z.mul_comm (2 ^ 11)), Z.div_add by lia.
      rewrite Z.div_small by done. lia.
Qed.

Lemma sbus_encode_markers (values : list Z) :
  markers_ok (sbus_encode values)
  ∧ signal_lost (sbus_encode values) && failsafe (sbus_encode values) = false.
Proof. by repeat split. Qed.

Lemma sbus_encode_data (values : list Z) (b : Z) :
  0 ≤ b < 22 →
  sbus_encode values !!! Z.to_nat (1 + b)
  = Z.shiftr (sbus_pack values) (8 * b) mod 256.
Proof.
  intros Hb. replace (Z.to_nat (1 + b)) with (S (Z.to_nat b)) by lia.
  rewrite <- (Z2Nat.id b) at 2 by lia.
  assert (Z.to_nat b < 22)%nat as Hlt by lia.
  generalize dependent (Z.to_nat b). intros k Hlt.
  do 22 (destruct k as [|k]; [reflexivity|]). lia.
Qed.

Lemma existsb_ext_in {A} (g h : A → bool) (l : list A) :
  (∀ x, In x l → g x = h x) → existsb g l = existsb h l.
Proof.
  induction l as [|x l IH]; intros Hgh; [done|]. cbn [existsb].
  rewrite (Hgh x) by (by left). rewrite IH; [done|].
  intros y Hy. apply Hgh. by right.
Qed.

Lemma existsb_omap {A B} (g : A → option B) (h : B → bool) (l : list A) :
  existsb (λ x, match g x with Some y => h y | None => false end) l
  = existsb h (omap g l).
Proof.
  induction l as [|x l IH]; [done|]. cbn [existsb omap list_omap].
  fold (omap g l). destruct (g x); cbn [existsb]; by rewrite IH.
Qed.

(** On an encoded frame an entry contributes the bit of the field that
    [pick_source] names. *)
Lemma sbus_piece_source (values : list Z) (p : sbus_bit_pick) (n : Z) :
  0 ≤ n → 0 ≤ byte p < 22 → 0 ≤ rshift p →
  bool_decide (mask p ≠ 0) && Z.testbit (sbus_piece (sbus_encode values) p) n
  = match pick_source n p with
    | Some k => Z.testbit (sbus_pack values) k
    | None => false
    end.
Proof.
  intros Hn Hb Hr. rewrite sbus_piece_testbit, sbus_encode_data by done.
  unfold pick_source.
  destruct (bool_decide (mask p ≠ 0)); [|done].
  destruct (n <? 32); [|done].
  destruct (Z.leb_spec (lshift p) n); [|done].
  destruct (Z.testbit (mask p) (n - lshift p)); [|done].
  cbn [andb].
  change 256 with (2 ^ 8). rewrite Z.testbit_mod_pow2 by done.
  destruct (n - lshift p + rshift p <? 8); [|done].
  cbn [andb]. rewrite Z.shiftr_spec by lia. f_equal. lia.
Qed.

Lemma sbus_decoder_in_field :
  Forall (λ row, entries_in_field row = true) sbus_decoder.
Proof. repeat constructor. Qed.

(** The matrix against the layout: in row [i], bit [n] of the value comes
    from exactly one place, bit [11 * i + n] of the field. *)
Lemma sbus_decoder_layout :
  Forall (λ i : nat,
    Forall (λ n, omap (pick_source n) (sbus_decoder !!! i) = [11 * Z.of_nat i + n])
           (seqZ 0 11))
    (seq 0 16).
Proof. eapply bool_decide_unpack. vm_compute. exact I. Qed.

Lemma sbus_value_encode_testbit (values : list Z) (i : nat) (n : Z) :
  (i < 16)%nat → 0 ≤ n < 11 →
  Z.testbit (sbus_value (sbus_encode values) i) n
  = Z.testbit (sbus_pack values) (11 * Z.of_nat i + n).
Proof.
  intros Hi Hn. rewrite sbus_value_testbit.
  destruct (sbus_decoder_rows i ltac:(lia)) as (row & Hrow & Hrow').
  pose proof (proj1 (Forall_lookup _ _) sbus_decoder_in_field i row Hrow) as Hfield.
  cbv beta in Hfield. unfold entries_in_field in Hfield.
  rewrite forallb_forall in Hfield.
  rewrite Hrow'.
  rewrite (existsb_ext_in _ (λ p, match pick_source n p with
                               | Some k => Z.testbit (sbus_pack values) k
                               | None => false end)).
  - rewrite existsb_omap.
    pose proof sbus_decoder_layout as Hlayout.
    rewrite Forall_forall in Hlayout.
    specialize (Hlayout i ltac:(apply elem_of_seq; lia)).
    rewrite Forall_forall in Hlayout.
    specialize (Hlayout n ltac:(apply elem_of_seqZ; lia)).
    rewrite Hrow' in Hlayout. rewrite Hlayout. cbn [existsb].
    by rewrite orb_false_r.
  - intros p Hp. specialize (Hfield p Hp).
    apply sbus_piece_source; lia.
Qed.

(** Decoding the raw value of a channel from an encoded frame gives back
    the 11-bit slice of the field that belongs to the channel. *)
Lemma sbus_value_encode (values : list Z) (i : nat) :
  (i < 16)%nat → length values = 16%nat →
  Forall (λ v, 0 ≤ v < 2 ^ 11) values →
  sbus_value (sbus_encode values) i = values !!! i.
Proof.
  intros Hi Hlen Hvalues. rewrite <- sbus_pack_channel by (done || lia).
  apply Z.bits_inj'. intros n Hn.
  rewrite Z.testbit_mod_pow2 by done.
  destruct (Z.ltb_spec n 11) as [Hlt|Hge]; cbn [andb].
  - rewrite Z.shiftr_spec by done.
    rewrite sbus_value_encode_testbit by lia. f_equal. lia.
  - apply (bits_of_bounded _ 11); [|done]. apply sbus_value_bound. lia.
Qed.

(** ** One call of [sbus_input] *)

Lemma wrap32_small (x : Z) : 0 ≤ x < 2 ^ 32 → wrap32 x = x.
Proof. apply Z.mod_small. Qed.

Lemma wrap64_small (x : Z) : 0 ≤ x < 2 ^ 64 → wrap64 x = x.
Proof. apply Z.mod_small. Qed.

(** [read] never returns more than it was asked for, and keeps the length
    of the buffer. *)
Lemma read_bounded (dev : device) (buf : list Z) (off : nat) (count : Z) :
  0 ≤ count →
  -1 ≤ (read dev buf off count).1 ≤ count
  ∧ length (read dev buf off count).2 = length buf.
Proof.
  intros Hc. destruct dev as [|pending]; simpl.
  - split; [lia|done].
  - rewrite length_inserts, length_take. split; [lia|done].
Qed.

(** Bytes stored at [off] extend the received part of the buffer. *)
Lemma list_inserts_take {A} (off : nat) (got l : list A) :
  (off + length got ≤ length l)%nat →
  take (off + length got) (list_inserts off got l) = take off l ++ got.
Proof.
  intros Hlen. apply list_eq. intros j.
  rewrite lookup_take.
  destruct (decide (j < off)%nat) as [Hlo|Hhi].
  - rewrite decide_True by lia.
    rewrite list_lookup_inserts_lt by done.
    rewrite lookup_app_l by (rewrite length_take; lia).
    rewrite lookup_take. by rewrite decide_True.
  - rewrite lookup_app_r by (rewrite length_take; lia).
    rewrite length_take, Nat.min_l by lia.
    destruct (decide (j < off + length got)%nat) as [Hin|Hout].
    + by rewrite list_lookup_inserts by lia.
    + symmetry. apply lookup_ge_None. lia.
Qed.

Lemma sbus_input_gap_count (now : Z) (s : sbus) :
  0 ≤ partial_frame_count s ≤ 25 →
  0 ≤ partial_frame_count (sbus_input_gap now s) ≤ partial_frame_count s
  ∧ frame (sbus_input_gap now s) = frame s
  ∧ last_frame_time (sbus_input_gap now s) = last_frame_time s
  ∧ last_rx_time (sbus_input_gap now s) = last_rx_time s
  ∧ system_state (sbus_input_gap now s) = system_state s.
Proof.
  intros Hp. unfold sbus_input_gap.
  repeat case_bool_decide; simpl; repeat split; (done || lia).
Qed.

Lemma sbus_input_gap_expired (now : Z) (s : sbus) :
  3000 < wrap64 (now - last_rx_time s) → 0 < partial_frame_count s →
  sbus_input_gap now s
  = set_partial_frame_count 0
      (set_sbus_frame_drops (wrap32 (sbus_frame_drops s + 1)) s).
Proof.
  intros Hgap Hp. unfold sbus_input_gap. by rewrite !bool_decide_eq_true_2.
Qed.

Lemma sbus_input_gap_idle (now : Z) (s : sbus) :
  partial_frame_count s = 0 → sbus_input_gap now s = s.
Proof.
  intros Hp. unfold sbus_input_gap. rewrite Hp.
  case_bool_decide; [|done]. by rewrite bool_decide_eq_false_2.
Qed.

(** The fetch step, case by case. *)
Lemma sbus_input_fetch_error (now : Z) (s : sbus) :
  sbus_input_fetch now ReadError s = (s, false).
Proof. unfold sbus_input_fetch. simpl. by destruct s. Qed.

Lemma sbus_input_fetch_data (now : Z) (pending : list Z) (s : sbus) :
  0 ≤ partial_frame_count s ≤ 25 →
  let p := partial_frame_count s in
  let got := take (Z.to_nat (25 - p)) pending in
  sbus_input_fetch now (ReadData pending) s
  = if bool_decide (got = []) then (s, false)
    else (mk_sbus now (last_frame_time s)
                  (list_inserts (Z.to_nat p) got (frame s))
                  (p + Z.of_nat (length got))
                  (sbus_frame_drops s) (system_state s),
          bool_decide (p + Z.of_nat (length got) = 25)).
Proof.
  intros Hp p got. unfold sbus_input_fetch, read, SBUS_FRAME_SIZE.
  rewrite wrap32_small by lia. fold p. fold got.
  assert (Z.of_nat (length got) ≤ 25 - p) as Hgot.
  { unfold got. rewrite length_take. lia. }
  clearbody got. destruct got as [|b rest].
  - rewrite bool_decide_eq_true_2 by (simpl; lia). simpl. by destruct s.
  - rewrite bool_decide_eq_false_2 by (cbn [length]; lia).
    rewrite (bool_decide_eq_false_2 (_ = [])) by done.
    cbn [partial_frame_count set_partial_frame_count set_last_rx_time
         set_frame last_rx_time last_frame_time frame sbus_frame_drops
         system_state].
    fold p. rewrite wrap32_small by (cbn [length] in *; lia).
    cbn [length] in *.
    case_bool_decide; case_bool_decide; (done || lia).
Qed.

Lemma sbus_input_fetch_count (now : Z) (dev : device) (s : sbus) :
  0 ≤ partial_frame_count s ≤ 25 →
  let r := sbus_input_fetch now dev s in
  partial_frame_count s ≤ partial_frame_count r.1 ≤ 25
  ∧ (r.2 = true → partial_frame_count r.1 = 25)
  ∧ (partial_frame_count s < 25 → partial_frame_count r.1 = 25 → r.2 = true)
  ∧ length (frame r.1) = length (frame s)
  ∧ last_frame_time r.1 = last_frame_time s
  ∧ sbus_frame_drops r.1 = sbus_frame_drops s
  ∧ system_state r.1 = system_state s.
Proof.
  intros Hp. destruct dev as [|pending]; cbv zeta.
  - rewrite sbus_input_fetch_error. simpl. repeat split; (done || lia).
  - rewrite sbus_input_fetch_data by done.
    set (got := take _ pending).
    assert (Z.of_nat (length got) ≤ 25 - partial_frame_count s) as Hgot.
    { unfold got. rewrite length_take. lia. }
    case_bool_decide as Hnil; simpl.
    + repeat split; (done || lia).
    + rewrite length_inserts.
      repeat split; try (done || lia).
      * intros H. by apply bool_decide_eq_true in H.
      * intros _ H. by apply bool_decide_eq_true.
Qed.

Section InputLemmas.

Variable PX4IO_INPUT_CHANNELS : nat.
Local Abbreviation input := (sbus_input PX4IO_INPUT_CHANNELS).
Local Abbreviation run := (sbus_run PX4IO_INPUT_CHANNELS).

Lemma sbus_input_unfold (now : Z) (dev : device) (s : sbus) :
  input now dev s
  = let r := sbus_input_fetch now dev (sbus_input_gap now s) in
    let s' :=
      if r.2
      then set_partial_frame_count 0 (sbus_decode PX4IO_INPUT_CHANNELS now r.1)
      else r.1 in
    (s', bool_decide (wrap64 (now - last_frame_time s') < 200000)).
Proof. unfold sbus_input. by destruct (sbus_input_fetch _ _ _). Qed.

Lemma sbus_decode_keeps (t : Z) (s : sbus) :
  frame (sbus_decode PX4IO_INPUT_CHANNELS t s) = frame s
  ∧ last_rx_time (sbus_decode PX4IO_INPUT_CHANNELS t s) = last_rx_time s.
Proof.
  unfold sbus_decode. cbv zeta.
  destruct (_ || _); [done|]. by destruct (_ && _).
Qed.

Lemma sbus_input_last_frame_time (now : Z) (dev : device) (s : sbus) :
  last_frame_time (input now dev s).1
  = if sbus_input_decodes now dev s then now else last_frame_time s.
Proof.
  rewrite sbus_input_unfold. unfold sbus_input_decodes. cbv zeta.
  destruct (sbus_input_fetch now dev (sbus_input_gap now s)) as [s2 full] eqn:E.
  assert (last_frame_time s2 = last_frame_time s) as Hsame.
  { unfold sbus_input_fetch in E. destruct (read _ _ _ _) as [ret buf].
    unfold sbus_input_gap in E.
    repeat case_bool_decide; inversion E; subst; done. }
  destruct full; simpl; [|done].
  rewrite sbus_decode_frame_valid, Hsame. done.
Qed.

Lemma sbus_input_locked (now : Z) (dev : device) (s : sbus) :
  (input now dev s).2
  = bool_decide (wrap64 (now - last_frame_time (input now dev s).1) < 200000).
Proof. by rewrite sbus_input_unfold. Qed.

End InputLemmas.

(** ** What has not been received yet does not matter *)

Lemma same_received_refl (s : sbus) :
  length (frame s) = 25%nat → 0 ≤ partial_frame_count s ≤ 25 →
  same_received s s.
Proof. intros Hlen Hp. unfold same_received. repeat split; (done || lia). Qed.

Lemma same_received_full (s1 s2 : sbus) :
  same_received s1 s2 → partial_frame_count s1 = 25 → s1 = s2.
Proof.
  intros (Hrx & Hft & Hp & Hd & Hy & Hl1 & Hl2 & _ & Htake) H25.
  apply sbus_eq; try done.
  rewrite H25 in Htake. by rewrite !take_ge in Htake by lia.
Qed.

Lemma same_received_gap (now : Z) (s1 s2 : sbus) :
  same_received s1 s2 →
  same_received (sbus_input_gap now s1) (sbus_input_gap now s2).
Proof.
  intros (Hrx & Hft & Hp & Hd & Hy & Hl1 & Hl2 & Hr & Htake).
  unfold sbus_input_gap. rewrite <- Hrx, <- Hp, <- Hd.
  repeat case_bool_decide; repeat split; simpl; (done || lia).
Qed.

Lemma same_received_fetch (now : Z) (dev : device) (s1 s2 : sbus) :
  same_received s1 s2 →
  same_received (sbus_input_fetch now dev s1).1 (sbus_input_fetch now dev s2).1
  ∧ (sbus_input_fetch now dev s1).2 = (sbus_input_fetch now dev s2).2.
Proof.
  intros Hsame.
  pose proof Hsame as (Hrx & Hft & Hp & Hd & Hy & Hl1 & Hl2 & Hr & Htake).
  destruct dev as [|pending].
  - by rewrite !sbus_input_fetch_error.
  - rewrite !sbus_input_fetch_data by lia. cbv zeta. rewrite <- Hp, <- Hft, <- Hd, <- Hy.
    set (got := take _ pending).
    assert (Z.of_nat (length got) ≤ 25 - partial_frame_count s1) as Hgot.
    { unfold got. rewrite length_take. lia. }
    case_bool_decide; [done|]. simpl. split; [|done].
    repeat split; simpl; rewrite ?length_inserts; try (done || lia).
    replace (Z.to_nat (partial_frame_count s1 + Z.of_nat (length got)))
      with (Z.to_nat (partial_frame_count s1) + length got)%nat by lia.
    rewrite !list_inserts_take by lia. by rewrite Htake.
Qed.

Section SessionLemmas.

Variable PX4IO_INPUT_CHANNELS : nat.
Local Abbreviation input := (sbus_input PX4IO_INPUT_CHANNELS).
Local Abbreviation run := (sbus_run PX4IO_INPUT_CHANNELS).

Lemma sbus_input_keeps_length (now : Z) (dev : device) (s : sbus) :
  0 ≤ partial_frame_count s ≤ 25 →
  length (frame (input now dev s).1) = length (frame s)
  ∧ 0 ≤ partial_frame_count (input now dev s).1 ≤ 25.
Proof.
  intros Hp. rewrite sbus_input_unfold. cbv zeta.
  pose proof (sbus_input_gap_count now s Hp) as (Hg & Hgf & _).
  pose proof (sbus_input_fetch_count now dev (sbus_input_gap now s) ltac:(lia))
    as (Hc & _ & _ & Hlen & _).
  cbv zeta in Hc, Hlen.
  destruct (sbus_input_fetch now dev (sbus_input_gap now s)) as [s2 full].
  simpl in *. destruct full; simpl.
  - rewrite (proj1 (sbus_decode_keeps _ _ _)). split; [congruence|lia].
  - split; [congruence|lia].
Qed.

Lemma same_received_input (now : Z) (dev : device) (s1 s2 : sbus) :
  same_received s1 s2 →
  same_received (input now dev s1).1 (input now dev s2).1
  ∧ (input now dev s1).2 = (input now dev s2).2.
Proof.
  intros Hsame.
  pose proof (same_received_fetch now dev _ _ (same_received_gap now _ _ Hsame))
    as [Hfetch Hfull].
  rewrite !sbus_input_unfold. cbv zeta. rewrite <- Hfull.
  destruct (sbus_input_fetch now dev (sbus_input_gap now s1)) as [r1 full] eqn:E1.
  destruct (sbus_input_fetch now dev (sbus_input_gap now s2)) as [r2 full2].
  simpl in *. destruct full.
  - assert (partial_frame_count r1 = 25) as H25.
    { pose proof Hsame as (_ & _ & _ & _ & _ & _ & _ & Hr & _).
      pose proof (sbus_input_gap_count now s1 Hr) as (Hg & _).
      pose proof (sbus_input_fetch_count now dev (sbus_input_gap now s1)
                    ltac:(lia)) as (_ & Hf & _).
      rewrite E1 in Hf. by apply Hf. }
    rewrite <- (same_received_full r1 r2 Hfetch H25).
    split; [|done]. apply same_received_refl; simpl.
    + rewrite (proj1 (sbus_decode_keeps _ _ _)). apply Hfetch.
    + lia.
  - split; [done|]. simpl.
    destruct Hfetch as (_ & -> & _). done.
Qed.

Lemma same_received_run (calls : list (Z * device)) (s1 s2 : sbus) :
  same_received s1 s2 →
  same_received (run calls s1).1 (run calls s2).1
  ∧ (run calls s1).2 = (run calls s2).2.
Proof.
  revert s1 s2. induction calls as [|[now dev] calls IH]; intros s1 s2 Hsame.
  - done.
  - cbn [sbus_run].
    destruct (same_received_input now dev s1 s2 Hsame) as [Hstep Hlocked].
    destruct (input now dev s1) as [r1 l1], (input now dev s2) as [r2 l2].
    simpl in Hstep, Hlocked. subst l2.
    destruct (IH r1 r2 Hstep) as [Hrun Hout].
    destruct (run calls r1) as [q1 o1], (run calls r2) as [q2 o2].
    simpl in *. split; [done|]. by subst.
Qed.

(** ** The most recent valid frame of a session *)

Lemma sbus_run_snoc (calls : list (Z * device)) (now : Z) (dev : device) (s : sbus) :
  run (calls ++ [(now, dev)]) s
  = ((input now dev (run calls s).1).1,
     (run calls s).2 ++ [(input now dev (run calls s).1).2]).
Proof.
  revert s. induction calls as [|[now' dev'] calls IH]; intros s.
  - cbn [app sbus_run fst snd]. by destruct (input now dev s).
  - cbn [app sbus_run]. destruct (input now' dev' s) as [r l].
    rewrite IH. by destruct (run calls r).
Qed.

Lemma sbus_last_good_snoc (calls : list (Z * device)) (now : Z) (dev : device)
      (s : sbus) (acc : option Z) :
  sbus_last_good PX4IO_INPUT_CHANNELS (calls ++ [(now, dev)]) s acc
  = if sbus_input_decodes now dev (run calls s).1 then Some now
    else sbus_last_good PX4IO_INPUT_CHANNELS calls s acc.
Proof.
  revert s acc. induction calls as [|[now' dev'] calls IH]; intros s acc.
  - done.
  - cbn [app sbus_last_good sbus_run fst]. rewrite IH.
    destruct (input now' dev' s) as [r l]. cbn [fst]. by destruct (run calls r).
Qed.

(** [last_frame_time] holds the time of the most recent valid frame. *)
Lemma sbus_last_good_time (calls : list (Z * device)) (s : sbus)
      (acc : option Z) (t : Z) :
  (∀ t', acc = Some t' → last_frame_time s = t') →
  sbus_last_good PX4IO_INPUT_CHANNELS calls s acc = Some t →
  last_frame_time (run calls s).1 = t.
Proof.
  revert s acc. induction calls as [|[now dev] calls IH]; intros s acc Hacc Hgood.
  - by apply Hacc.
  - cbn [sbus_last_good sbus_run] in *.
    pose proof (sbus_input_last_frame_time PX4IO_INPUT_CHANNELS now dev s) as Hstep.
    destruct (input now dev s) as [r l]. simpl in *.
    assert (∀ t', (if sbus_input_decodes now dev s then Some now else acc)
                  = Some t' → last_frame_time r = t') as Hacc'.
    { intros t' Ht'. rewrite Hstep.
      destruct (sbus_input_decodes now dev s); [congruence|]. by apply Hacc. }
    specialize (IH r _ Hacc' Hgood). by destruct (run calls r).
Qed.

End SessionLemmas.

(** ** A frame that arrives in pieces *)

Section Pieces.

Variable PX4IO_INPUT_CHANNELS : nat.

Lemma sbus_input_gap_quiet (now : Z) (s : sbus) :
  partial_frame_count s = 0 ∨ wrap64 (now - last_rx_time s) ≤ 3000 →
  sbus_input_gap now s = s.
Proof.
  intros [Hp|Hgap]; [by apply sbus_input_gap_idle|].
  unfold sbus_input_gap. by rewrite bool_decide_eq_false_2 by lia.
Qed.

Lemma list_inserts_fill {A} (off : nat) (got l : list A) :
  (off + length got = length l)%nat →
  list_inserts off got l = take off l ++ got.
Proof.
  intros Hlen. rewrite <- list_inserts_take by lia.
  rewrite take_ge; [done|]. rewrite length_inserts. lia.
Qed.

(** Pieces that arrive in time and add up to a full frame are decoded, as
    one frame, by the call that receives the last piece. *)
Lemma sbus_run_pieces (pieces : list (Z * list Z)) (now : Z) (bs : list Z)
      (s : sbus) :
  length (frame s) = 25%nat → 0 ≤ partial_frame_count s →
  Forall (λ c, c.2 ≠ []) ((now, bs) :: pieces) →
  partial_frame_count s
  + Z.of_nat (length (concat (((now, bs) :: pieces).*2))) = 25 →
  partial_frame_count s = 0 ∨ wrap64 (now - last_rx_time s) ≤ 3000 →
  in_time now pieces →
  (sbus_run PX4IO_INPUT_CHANNELS (calls_of ((now, bs) :: pieces)) s).1
  = set_partial_frame_count 0
      (sbus_decode PX4IO_INPUT_CHANNELS (arrival now pieces)
         (mk_sbus (arrival now pieces) (last_frame_time s)
                  (take (Z.to_nat (partial_frame_count s)) (frame s)
                   ++ concat (((now, bs) :: pieces).*2))
                  25 (sbus_frame_drops s) (system_state s))).
Proof.
  revert now bs s.
  induction pieces as [|[now' bs'] pieces IH];
    intros now bs s Hlen Hp Hne Hsum Hquiet Htime.
  - cbn [calls_of map sbus_run fmap list_fmap concat arrival fst snd] in *.
    rewrite app_nil_r in *.
    rewrite sbus_input_unfold, sbus_input_gap_quiet by done.
    rewrite sbus_input_fetch_data by lia. cbv zeta.
    rewrite take_ge by lia.
    apply Forall_inv in Hne. cbn [snd] in Hne.
    rewrite bool_decide_eq_false_2 by done.
    rewrite bool_decide_eq_true_2 by done. cbn [fst snd].
    rewrite list_inserts_fill by lia.
    by replace (partial_frame_count s + Z.of_nat (length bs)) with 25 by lia.
  - cbn [calls_of map sbus_run fmap list_fmap concat arrival fst snd] in *.
    fold (calls_of pieces) in *.
    change (list_fmap _ _ snd pieces) with (pieces.*2) in *.
    rewrite !length_app in Hsum.
    pose proof (Forall_inv Hne) as Hbs. cbn [snd] in Hbs.
    pose proof (Forall_inv (Forall_inv_tail Hne)) as Hbs'. cbn [snd] in Hbs'.
    assert (0 < length bs')%nat by (destruct bs'; [done|simpl; lia]).
    rewrite sbus_input_unfold, sbus_input_gap_quiet by done.
    rewrite sbus_input_fetch_data by lia. cbv zeta.
    rewrite take_ge by lia.
    rewrite bool_decide_eq_false_2 by done.
    rewrite bool_decide_eq_false_2 by lia. cbn [fst snd].
    set (s2 := mk_sbus _ _ _ _ _ _).
    destruct Htime as [Hgap Htime].
    specialize (IH now' bs' s2).
    cbn [calls_of map sbus_run fmap list_fmap concat arrival fst snd] in IH.
    fold (calls_of pieces) in IH.
    change (list_fmap _ _ snd pieces) with (pieces.*2) in IH.
    destruct (sbus_input PX4IO_INPUT_CHANNELS now' (ReadData bs') s2) as [r l].
    destruct (sbus_run PX4IO_INPUT_CHANNELS (calls_of pieces) r) as [q o].
    cbn [fst] in *. rewrite IH.
    + unfold s2; cbn [partial_frame_count frame last_frame_time
                       sbus_frame_drops system_state].
      replace (Z.to_nat (partial_frame_count s + Z.of_nat (length bs)))
        with (Z.to_nat (partial_frame_count s) + length bs)%nat by lia.
      rewrite list_inserts_take by lia. by rewrite <- app_assoc.
    + unfold s2; simpl. by rewrite length_inserts.
    + unfold s2; simpl. lia.
    + by apply Forall_inv_tail in Hne.
    + unfold s2; cbn [partial_frame_count]. rewrite length_app. lia.
    + right. done.
    + done.
Qed.

End Pieces.

(** * The decoder's specification *)

Lemma frame_valid_spec (f : list Z) :
  frame_valid f = true
  ↔ markers_ok f ∧ signal_lost f && failsafe f = false.
Proof.
  unfold frame_valid, markers_ok.
  rewrite !andb_true_iff, !bool_decide_eq_true, negb_true_iff. tauto.
Qed.

(** C1. A frame with correct boundary markers is a connection-loss signal
    exactly when both failsafe bits of byte 23 are set: then the channel
    count becomes 0 and nothing else changes, in particular neither the
    channel data nor the good-frame time. Otherwise, and so when exactly one
    of the two bits is set, the frame is decoded: the channels are written
    and the good-frame time is set to the frame time. When at least one
    channel is supported, the channel count tells the two outcomes apart. *)
Theorem sbus_decode_failsafe_policy (n : nat) (t : Z) (s : sbus) :
  markers_ok (frame s) →
  let f := frame s in
  let s' := sbus_decode n t s in
  (signal_lost f = true ∧ failsafe f = true →
   connection_lost s s'
   ∧ rc_channels (system_state s') = 0
   ∧ rc_channel_data (system_state s') = rc_channel_data (system_state s)
   ∧ last_frame_time s' = last_frame_time s)
  ∧ (¬ (signal_lost f = true ∧ failsafe f = true) →
     decoded (chancount n) t s s')
  ∧ (xorb (signal_lost f) (failsafe f) = true →
     decoded (chancount n) t s s')
  ∧ ((0 < n)%nat →
     (rc_channels (system_state s') = 0
      ↔ signal_lost f = true ∧ failsafe f = true)).
Proof.
  intros Hok f s'.
  assert (signal_lost f = true ∧ failsafe f = true → connection_lost s s')
    as Hlost.
  { intros [Hsl Hfs]. apply sbus_decode_lost; [done|].
    fold f. by rewrite Hsl, Hfs. }
  assert (¬ (signal_lost f = true ∧ failsafe f = true) →
          decoded (chancount n) t s s') as Hdec.
  { intros Hnot. apply sbus_decode_decoded; [done|]. fold f.
    destruct (signal_lost f), (failsafe f); try done. by destruct Hnot. }
  assert (¬ (signal_lost f = true ∧ failsafe f = true) →
          rc_channels (system_state s') ≠ 0 ∨ n = 0%nat) as Hcount.
  { intros Hnot. destruct (Hdec Hnot) as (_ & -> & _).
    unfold chancount, SBUS_INPUT_CHANNELS. destruct (18 <? n)%nat; lia. }
  split; [|split; [|split]].
  - intros Hboth. rewrite (Hlost Hboth). by repeat split.
  - done.
  - intros Hone. apply Hdec. intros [Hsl Hfs]. by rewrite Hsl, Hfs in Hone.
  - intros Hn. split.
    + intros Hzero.
      destruct (decide (signal_lost f = true ∧ failsafe f = true)) as [|Hnot];
        [done|].
      destruct (Hcount Hnot); [done|lia].
    + intros Hboth. by rewrite (Hlost Hboth).
Qed.

Lemma sbus_decode_failsafe_policy_witness :
  markers_ok (frame (holding 12 (scenario_frame 0x04)))
  ∧ decoded 12 1000 (holding 12 (scenario_frame 0x04))
            (sbus_decode 12 1000 (holding 12 (scenario_frame 0x04)))
  ∧ rc_channel_data
      (system_state (sbus_decode 12 1000 (holding 12 (scenario_frame 0x04))))
    !! 0%nat = Some 1510.
Proof.
  assert (markers_ok (frame (holding 12 (scenario_frame 0x04)))) as Hok
    by (split; reflexivity).
  split; [exact Hok|]. split; [|reflexivity].
  destruct (sbus_decode_failsafe_policy 12 1000 _ Hok) as (_ & _ & Hone & _).
  apply Hone. reflexivity.
Defined.

(** C4. A buffer whose start or end marker is wrong is dropped: the
    dropped-frame counter goes up by one (in 32-bit unsigned arithmetic, so
    by exactly 1 below its maximum), and the channel data, the channel
    count and the good-frame time keep their values; no frame is decoded. *)
Theorem sbus_decode_bad_markers (n : nat) (t : Z) (s : sbus) :
  frame s !!! 0%nat ≠ 0x0f ∨ frame s !!! 24%nat ≠ 0x00 →
  let s' := sbus_decode n t s in
  s' = set_sbus_frame_drops (wrap32 (sbus_frame_drops s + 1)) s
  ∧ sbus_frame_drops s' = wrap32 (sbus_frame_drops s + 1)
  ∧ (0 ≤ sbus_frame_drops s < 2 ^ 32 - 1 →
     sbus_frame_drops s' = sbus_frame_drops s + 1)
  ∧ system_state s' = system_state s
  ∧ last_frame_time s' = last_frame_time s.
Proof.
  intros Hbad s'. unfold s'.
  rewrite sbus_decode_dropped by (unfold markers_ok; tauto).
  repeat split. intros Hd. simpl. apply wrap32_small. lia.
Qed.

Lemma sbus_decode_bad_markers_witness :
  let s := holding 12 (<[24%nat := 0x55]> (scenario_frame 0)) in
  (frame s !!! 0%nat ≠ 0x0f ∨ frame s !!! 24%nat ≠ 0x00)
  ∧ sbus_frame_drops (sbus_decode 12 1000 s) = 1
  ∧ system_state (sbus_decode 12 1000 s) = system_state s
  ∧ last_frame_time (sbus_decode 12 1000 s) = last_frame_time s.
Proof.
  intros s.
  assert (frame s !!! 0%nat ≠ 0x0f ∨ frame s !!! 24%nat ≠ 0x00) as Hbad
    by (right; discriminate).
  split; [exact Hbad|].
  destruct (sbus_decode_bad_markers 12 1000 s Hbad) as (_ & _ & Hone & Hsys & Hft).
  split; [|by split]. apply Hone. simpl. lia.
Defined.

Lemma sbus_decode_lookup (n : nat) (t : Z) (s : sbus) (i : nat) (v : Z) :
  frame_valid (frame s) = true → (i < chancount n)%nat →
  rc_channel_data (system_state (sbus_decode n t s)) !! i = Some v →
  v = sbus_channel (chancount n) (frame s) i.
Proof.
  intros Hvalid Hi Hv. apply frame_valid_spec in Hvalid as [Hok Hfs].
  destruct (sbus_decode_decoded n t s Hok Hfs)
    as (_ & _ & _ & _ & Hlen & Hdata & _).
  apply lookup_lt_Some in Hv as Hlt. rewrite Hlen in Hlt.
  rewrite (Hdata i Hi Hlt) in Hv. congruence.
Qed.

(** C2, as stated, fails: a valid frame whose channels carry the raw value 0
    is decoded to 998, and one whose channels carry 2047 to 2021. *)
Lemma sbus_decode_outside_1000_2000 :
  frame_valid (uniform_frame 0) = true
  ∧ rc_channel_data
      (system_state (sbus_decode 12 1000 (holding 12 (uniform_frame 0))))
    !! 0%nat = Some 998
  ∧ ¬ (1000 ≤ 998 ≤ 2000)
  ∧ frame_valid (uniform_frame 2047) = true
  ∧ rc_channel_data
      (system_state (sbus_decode 12 1000 (holding 12 (uniform_frame 2047))))
    !! 0%nat = Some 2021
  ∧ ¬ (1000 ≤ 2021 ≤ 2000).
Proof. repeat split; try reflexivity; lia. Qed.

(** C2, amended. Every channel value that a successful decode writes, the
    second switch channel (index 17) left aside, lies in [998, 2021]. *)
Theorem sbus_decode_channel_range (n : nat) (t : Z) (s : sbus) (i : nat) (v : Z) :
  frame_valid (frame s) = true → (i < chancount n)%nat → i ≠ 17%nat →
  rc_channel_data (system_state (sbus_decode n t s)) !! i = Some v →
  998 ≤ v ≤ 2021.
Proof.
  intros Hvalid Hi H17 Hv.
  rewrite (sbus_decode_lookup n t s i v Hvalid Hi Hv).
  by apply sbus_channel_range.
Qed.

Lemma sbus_decode_channel_range_witness :
  frame_valid (frame (holding 18 (scenario_frame 0x01))) = true
  ∧ (16 < chancount 18)%nat
  ∧ rc_channel_data
      (system_state (sbus_decode 18 1000 (holding 18 (scenario_frame 0x01))))
    !! 16%nat = Some 1998
  ∧ 998 ≤ 1998 ≤ 2021.
Proof.
  split; [reflexivity|]. split; [vm_compute; lia|]. split; [reflexivity|].
  apply (sbus_decode_channel_range 18 1000
           (holding 18 (scenario_frame 0x01)) 16 1998);
    [reflexivity | vm_compute; lia | discriminate | reflexivity].
Defined.

(** C3. With more than 17 channels supported, a successful decode derives
    channel 17 (index 16) from bit 0 of byte 23, as 998 or 1998, and
    channel 18 (index 17) from bit 1 of byte 23: 998 when the bit is clear,
    but 2998, not 1998, when it is set. *)
Theorem sbus_decode_switches (n : nat) (t : Z) (s : sbus) :
  (17 < chancount n)%nat → frame_valid (frame s) = true →
  (18 ≤ length (rc_channel_data (system_state s)))%nat →
  let flags := frame s !!! 23%nat in
  let data := rc_channel_data (system_state (sbus_decode n t s)) in
  data !! 16%nat = Some (if Z.testbit flags 0 then 1998 else 998)
  ∧ data !! 17%nat = Some (if Z.testbit flags 1 then 2998 else 998).
Proof.
  intros Hn Hvalid Hlen flags data.
  apply frame_valid_spec in Hvalid as [Hok Hfs].
  destruct (sbus_decode_decoded n t s Hok Hfs)
    as (_ & _ & _ & _ & _ & Hdata & _).
  unfold data. rewrite !Hdata by lia. unfold sbus_channel.
  apply Nat.ltb_lt in Hn. rewrite Hn. cbn [andb Nat.eqb].
  by rewrite switch_17_value, switch_18_value.
Qed.

Lemma sbus_decode_switches_witness :
  (17 < chancount 18)%nat
  ∧ frame_valid (frame (holding 18 (scenario_frame 0x02))) = true
  ∧ Z.testbit (scenario_frame 0x02 !!! 23%nat) 1 = true
  ∧ rc_channel_data
      (system_state (sbus_decode 18 1000 (holding 18 (scenario_frame 0x02))))
    !! 17%nat = Some 2998.
Proof.
  split; [vm_compute; lia|]. split; [reflexivity|]. split; [reflexivity|].
  apply (sbus_decode_switches 18 1000 (holding 18 (scenario_frame 0x02)));
    [vm_compute; lia | reflexivity | vm_compute; lia].
Defined.

(** C5. Round trip: pack sixteen 11-bit values into a frame by the S.bus
    layout, with valid markers and clear failsafe bits; decoding the frame
    writes [value / 2 + 998] for every channel that the matrix decodes. *)
Theorem sbus_round_trip (n : nat) (values : list Z) (t : Z) (s : sbus) (i : nat) :
  length values = 16%nat → Forall (λ v, 0 ≤ v ≤ 2047) values →
  frame s = sbus_encode values →
  (i < chancount n)%nat → (i < 16)%nat →
  (i < length (rc_channel_data (system_state s)))%nat →
  decoded (chancount n) t s (sbus_decode n t s)
  ∧ rc_channel_data (system_state (sbus_decode n t s)) !! i
    = Some (values !!! i / 2 + 998).
Proof.
  intros Hlen Hvalues Hframe Hi H16 Hdata.
  destruct (sbus_encode_markers values) as [Hok Hfs]. rewrite <- Hframe in Hok, Hfs.
  pose proof (sbus_decode_decoded n t s Hok Hfs) as Hdec.
  split; [done|].
  destruct Hdec as (_ & _ & _ & _ & _ & Hlookup & _).
  rewrite (Hlookup i Hi Hdata). f_equal. unfold sbus_channel.
  destruct (Nat.eqb_spec i 16); [lia|]. destruct (Nat.eqb_spec i 17); [lia|].
  rewrite !andb_false_r. rewrite Hframe, sbus_value_encode; [done..|].
  eapply Forall_impl; [exact Hvalues|]. intros v Hv. simpl in Hv. lia.
Qed.

Lemma sbus_round_trip_witness :
  let values := [1024; 172; 1811; 992; 2047; 0; 1; 2046;
                 1000; 1001; 1002; 1003; 1004; 1005; 1006; 1007] in
  rc_channel_data
    (system_state (sbus_decode 18 1000 (holding 18 (sbus_encode values))))
  !! 4%nat = Some (2047 / 2 + 998).
Proof.
  intros values.
  apply (sbus_round_trip 18 values 1000 (holding 18 (sbus_encode values)) 4).
  - reflexivity.
  - unfold values. repeat (constructor; [lia|]). constructor.
  - reflexivity.
  - vm_compute; lia.
  - lia.
  - vm_compute; lia.
Defined.

(** C9. For a frame with correct markers and not both failsafe bits set,
    the channel count and the channel values that decode produces are a
    function of the frame alone: two runs on the same frame, from any two
    states and at any two times, produce the same ones. *)
Theorem sbus_decode_deterministic (n : nat) (t1 t2 : Z) (s1 s2 : sbus) :
  frame s1 = frame s2 → markers_ok (frame s1) →
  ¬ (signal_lost (frame s1) = true ∧ failsafe (frame s1) = true) →
  (chancount n ≤ length (rc_channel_data (system_state s1)))%nat →
  (chancount n ≤ length (rc_channel_data (system_state s2)))%nat →
  let out1 := system_state (sbus_decode n t1 s1) in
  let out2 := system_state (sbus_decode n t2 s2) in
  rc_channels out1 = rc_channels out2
  ∧ take (chancount n) (rc_channel_data out1)
    = take (chancount n) (rc_channel_data out2)
  ∧ rc_channels out1 = Z.of_nat (chancount n)
  ∧ take (chancount n) (rc_channel_data out1)
    = map (sbus_channel (chancount n) (frame s1)) (seq 0 (chancount n)).
Proof.
  intros Hframe Hok Hnot Hlen1 Hlen2 out1 out2.
  assert (signal_lost (frame s1) && failsafe (frame s1) = false) as Hfs.
  { destruct (signal_lost _), (failsafe _); try done. by destruct Hnot. }
  assert (∀ t s, frame s = frame s1 →
            (chancount n ≤ length (rc_channel_data (system_state s)))%nat →
            rc_channels (system_state (sbus_decode n t s)) = Z.of_nat (chancount n)
            ∧ take (chancount n) (rc_channel_data (system_state (sbus_decode n t s)))
              = map (sbus_channel (chancount n) (frame s1)) (seq 0 (chancount n)))
    as Hfun.
  { intros t s Hf Hlen. rewrite <- Hf in Hok, Hfs.
    destruct (sbus_decode_decoded n t s Hok Hfs)
      as (_ & Hcount & _ & _ & Hl & Hdata & _).
    split; [done|]. apply list_eq. intros i. rewrite lookup_take.
    destruct (decide (i < chancount n)%nat) as [Hi|Hi].
    - rewrite Hdata by lia. rewrite list_lookup_fmap.
      rewrite lookup_seq_lt by done. by rewrite Hf.
    - symmetry. apply lookup_ge_None. rewrite length_map, length_seq. lia. }
  destruct (Hfun t1 s1 eq_refl Hlen1) as [Hc1 Hd1].
  destruct (Hfun t2 s2 (eq_sym Hframe) Hlen2) as [Hc2 Hd2].
  unfold out1, out2. rewrite Hc1, Hc2, Hd1, Hd2. done.
Qed.

Lemma sbus_decode_deterministic_witness :
  let s1 := holding 12 (scenario_frame 0x08) in
  let s2 := mk_sbus 7 9 (scenario_frame 0x08) 25 3
                    (mk_sys_state 12 (replicate 12 1500) 9 true) in
  take 12 (rc_channel_data (system_state (sbus_decode 12 1000 s1)))
  = take 12 (rc_channel_data (system_state (sbus_decode 12 2000 s2))).
Proof.
  intros s1 s2.
  apply (sbus_decode_deterministic 12 1000 2000 s1 s2).
  - reflexivity.
  - split; reflexivity.
  - intros [H _]. discriminate H.
  - vm_compute; lia.
  - vm_compute; lia.
Defined.

(** C10. For each of the channels 0..15 the entries of the decoder-matrix
    row select pairwise disjoint bits among bits 0..10 of the accumulator;
    so, whatever the frame, the raw value is below 2048 and the value that
    the channel loop writes lies in [998, 2021]. *)
Theorem sbus_decoder_row_range (n : nat) (f : list Z) (i : nat) :
  (i < 16)%nat →
  disjoint_picks (sbus_decoder !!! i) = true
  ∧ row_in_11_bits (sbus_decoder !!! i) = true
  ∧ 0 ≤ sbus_value f i < 2048
  ∧ (∀ data v, (i < chancount n)%nat →
               sbus_matrix_channels n f data !! i = Some v →
               v = sbus_value f i / 2 + 998 ∧ 998 ≤ v ≤ 2021).
Proof.
  intros Hi.
  destruct (sbus_decoder_rows i ltac:(lia)) as (row & Hrow & Hrow').
  split; [|split; [|split]].
  - rewrite Hrow'.
    apply (proj1 (Forall_lookup _ _) sbus_decoder_disjoint i row Hrow).
  - rewrite Hrow'.
    apply (proj1 (Forall_lookup _ _) sbus_decoder_in_11_bits i row Hrow).
  - apply sbus_value_bound. lia.
  - intros data v Hn Hv. apply lookup_lt_Some in Hv as Hlt.
    rewrite sbus_matrix_channels_length in Hlt.
    rewrite sbus_matrix_channels_lookup in Hv by done.
    injection Hv as <-. split; [done|]. apply sbus_matrix_value_range. lia.
Qed.

Lemma sbus_decoder_row_range_witness :
  0 ≤ sbus_value (uniform_frame 2047) 15 < 2048
  ∧ sbus_value (uniform_frame 2047) 15 = 2047.
Proof.
  split; [|reflexivity].
  apply (sbus_decoder_row_range 16 (uniform_frame 2047) 15). lia.
Defined.

(** * The synchroniser's specification *)

(** C6. When more than 3ms have passed since the last received byte and
    1..24 bytes of a frame are held, [sbus_input] first counts one dropped
    frame and resets the accumulation count to 0; the call goes on from
    there, storing new bytes from offset 0. The next 25 bytes, arriving in
    this call or in pieces over this and the following calls, are then
    decoded as one frame made of the new bytes alone; and whatever arrives
    in this and in later calls, nothing observable depends on the bytes that
    were discarded or on how many they were. *)
Theorem sbus_input_gap_discards (n : nat) (now : Z) (s : sbus) :
  3000 < wrap64 (now - last_rx_time s) →
  1 ≤ partial_frame_count s ≤ 24 →
  length (frame s) = 25%nat →
  let s1 := sbus_input_gap now s in
  sbus_frame_drops s1 = wrap32 (sbus_frame_drops s + 1)
  ∧ (0 ≤ sbus_frame_drops s < 2 ^ 32 - 1 →
     sbus_frame_drops s1 = sbus_frame_drops s + 1)
  ∧ partial_frame_count s1 = 0
  ∧ (∀ dev, sbus_input n now dev s = sbus_input n now dev s1)
  ∧ (∀ pending,
       frame (sbus_input_fetch now (ReadData pending) s1).1
       = list_inserts 0 (take 25 pending) (frame s))
  ∧ (∀ bs pieces,
       Forall (λ c, c.2 ≠ []) ((now, bs) :: pieces) →
       length (concat (((now, bs) :: pieces).*2)) = 25%nat →
       in_time now pieces →
       (sbus_run n (calls_of ((now, bs) :: pieces)) s).1
       = set_partial_frame_count 0
           (sbus_decode n (arrival now pieces)
              (mk_sbus (arrival now pieces) (last_frame_time s)
                       (concat (((now, bs) :: pieces).*2)) 25
                       (wrap32 (sbus_frame_drops s + 1)) (system_state s))))
  ∧ (∀ s0 dev calls,
       last_rx_time s0 = last_rx_time s →
       last_frame_time s0 = last_frame_time s →
       sbus_frame_drops s0 = sbus_frame_drops s →
       system_state s0 = system_state s →
       1 ≤ partial_frame_count s0 ≤ 24 → length (frame s0) = 25%nat →
       (sbus_run n ((now, dev) :: calls) s).2
       = (sbus_run n ((now, dev) :: calls) s0).2
       ∧ same_received (sbus_run n ((now, dev) :: calls) s).1
                       (sbus_run n ((now, dev) :: calls) s0).1).
Proof.
  intros Hgap Hp Hlen s1.
  assert (s1 = set_partial_frame_count 0
                 (set_sbus_frame_drops (wrap32 (sbus_frame_drops s + 1)) s))
    as Hs1 by (apply sbus_input_gap_expired; [done|lia]).
  assert (∀ dev, sbus_input n now dev s = sbus_input n now dev s1) as Hcall.
  { intros dev. rewrite !sbus_input_unfold. fold s1.
    by rewrite (sbus_input_gap_idle now s1) by (by rewrite Hs1). }
  split; [by rewrite Hs1|]. split.
  { intros Hd. rewrite Hs1. simpl. apply wrap32_small. lia. }
  split; [by rewrite Hs1|]. split; [done|]. split.
  { intros pending. rewrite sbus_input_fetch_data by (rewrite Hs1; simpl; lia).
    cbv zeta. rewrite Hs1. simpl.
    change (Z.to_nat (25 - 0)) with 25%nat.
    case_bool_decide as Hnil; simpl; [by rewrite Hnil|done]. }
  split.
  { intros bs pieces Hne Hsum Htime.
    assert (sbus_run n (calls_of ((now, bs) :: pieces)) s
            = sbus_run n (calls_of ((now, bs) :: pieces)) s1) as ->.
    { cbn [calls_of map sbus_run]. by rewrite Hcall. }
    assert (partial_frame_count s1 = 0) as Hp1 by (by rewrite Hs1).
    rewrite sbus_run_pieces; rewrite ?Hp1; try (done || lia).
    - by rewrite Hs1.
    - by rewrite Hs1. }
  intros s0 dev calls Hrx Hft Hd Hy Hp0 Hlen0.
  assert (same_received s1 (sbus_input_gap now s0)) as Hsame.
  { rewrite Hs1, sbus_input_gap_expired by (rewrite ?Hrx; (done || lia)).
    unfold same_received; simpl. rewrite Hd.
    repeat split; (done || lia). }
  assert (∀ dev, sbus_input n now dev s0
                 = sbus_input n now dev (sbus_input_gap now s0)) as Hcall0.
  { intros dev'. rewrite !sbus_input_unfold.
    rewrite (sbus_input_gap_idle now (sbus_input_gap now s0)); [done|].
    by rewrite sbus_input_gap_expired by (rewrite ?Hrx; (done || lia)). }
  cbn [sbus_run]. rewrite Hcall, Hcall0.
  destruct (same_received_input n now dev _ _ Hsame) as [Hstep Hlocked].
  destruct (sbus_input n now dev s1) as [r1 l1].
  destruct (sbus_input n now dev (sbus_input_gap now s0)) as [r0 l0].
  simpl in Hstep, Hlocked. subst l0.
  destruct (same_received_run n calls r1 r0 Hstep) as [Hrun Hout].
  destruct (sbus_run n calls r1) as [q1 o1], (sbus_run n calls r0) as [q0 o0].
  simpl in *. split; [by subst|done].
Qed.

Lemma sbus_input_gap_discards_witness :
  let s := mk_sbus 1000 0 (replicate 25 0xaa) 7 0
                   (mk_sys_state 0 (replicate 12 0) 0 false) in
  let pieces := [(5400, drop 10 (scenario_frame 0))] in
  3000 < wrap64 (5000 - last_rx_time s)
  ∧ sbus_frame_drops (sbus_input_gap 5000 s) = 1
  ∧ partial_frame_count (sbus_input_gap 5000 s) = 0
  ∧ rc_channel_data
      (system_state
         (sbus_run 12 (calls_of ((5000, take 10 (scenario_frame 0)) :: pieces))
                   s).1)
    !! 0%nat = Some 1510.
Proof.
  intros s pieces.
  assert (3000 < wrap64 (5000 - last_rx_time s)) as Hgap by (vm_compute; done).
  assert (1 ≤ partial_frame_count s ≤ 24) as Hp by (simpl; lia).
  assert (length (frame s) = 25%nat) as Hlen by reflexivity.
  destruct (sbus_input_gap_discards 12 5000 s Hgap Hp Hlen)
    as (_ & Hone & Hzero & _ & _ & Hframe & _).
  split; [exact Hgap|]. split; [apply Hone; simpl; lia|].
  split; [exact Hzero|].
  rewrite (Hframe (take 10 (scenario_frame 0)) pieces).
  - reflexivity.
  - repeat constructor; discriminate.
  - reflexivity.
  - split; [vm_compute; discriminate|exact I].
Defined.

(** X12. In a session in which some call has decoded a valid frame, let [t]
    be the time of the most recent such call. [sbus_input] returns locked
    exactly when the 64-bit clock difference [now - t] is below 200ms; it
    returns locked in the very call that decodes a valid frame; and, the
    clock being monotonic, it returns not locked once more than 200ms have
    passed without a valid frame. *)
Lemma sbus_input_locked_iff (n : nat) (calls : list (Z * device))
      (now : Z) (dev : device) (s : sbus) (t : Z) :
  sbus_last_good n (calls ++ [(now, dev)]) s None = Some t →
  let s1 := (sbus_run n calls s).1 in
  let locked := (sbus_input n now dev s1).2 in
  last_frame_time (sbus_input n now dev s1).1 = t
  ∧ (locked = true ↔ wrap64 (now - t) < 200000)
  ∧ (sbus_input_decodes now dev s1 = true → t = now ∧ locked = true)
  ∧ (0 ≤ t ≤ now ∧ now < 2 ^ 64 → (locked = true ↔ now - t < 200000))
  ∧ (0 ≤ t ≤ now ∧ now < 2 ^ 64 → 200000 < now - t → locked = false).
Proof.
  intros Hgood s1 locked.
  assert (last_frame_time (sbus_input n now dev s1).1 = t) as Ht.
  { pose proof (sbus_last_good_time n (calls ++ [(now, dev)]) s None t
                  ltac:(done) Hgood) as H.
    by rewrite sbus_run_snoc in H. }
  assert (locked = true ↔ wrap64 (now - t) < 200000) as Hiff.
  { unfold locked. rewrite sbus_input_locked, Ht. apply bool_decide_eq_true. }
  split; [done|]. split; [done|]. split; [|split].
  - intros Hdec. rewrite sbus_input_last_frame_time in Ht. fold s1 in Ht.
    rewrite Hdec in Ht. subst t. split; [done|].
    apply Hiff. unfold wrap64. rewrite Z.sub_diag. done.
  - intros Hmono. rewrite Hiff, wrap64_small by lia. done.
  - intros Hmono Hlate. apply not_true_is_false. rewrite Hiff.
    rewrite wrap64_small by lia. lia.
Qed.

Lemma sbus_input_locked_iff_witness :
  let s := sbus_init 500 (sbus_start 12) in
  let calls := [(1000, ReadData (scenario_frame 0)); (150000, ReadError)] in
  sbus_last_good 12 (calls ++ [(201001, ReadData [0x0f])]) s None = Some 1000
  ∧ (sbus_run 12 calls s).2 = [true; true]
  ∧ (sbus_input 12 201001 (ReadData [0x0f]) (sbus_run 12 calls s).1).2 = false.
Proof.
  intros s calls.
  assert (sbus_last_good 12 (calls ++ [(201001, ReadData [0x0f])]) s None
          = Some 1000) as Hgood by reflexivity.
  split; [exact Hgood|]. split; [reflexivity|].
  destruct (sbus_input_locked_iff 12 calls 201001 (ReadData [0x0f]) s 1000 Hgood)
    as (_ & _ & _ & _ & Hlate).
  apply Hlate; lia.
Defined.

(** C7. The lock status is true right after a valid decode and false once
    more than 200ms have passed since the last one, but it is also true when
    no valid frame has been decoded at all and the clock reads less than
    200ms: [last_frame_time] starts at 0 and [sbus_init] does not set it. In
    a session that starts 0.5ms after the clock's origin, a call at 1ms that
    finds no byte, and so decodes nothing, returns locked. *)
Theorem sbus_input_locked_before_first_frame :
  let s := sbus_init 500 (sbus_start 12) in
  sbus_input_decodes 1000 (ReadData []) s = false
  ∧ sbus_last_good 12 [(1000, ReadData [])] s None = None
  ∧ last_frame_time (sbus_input 12 1000 (ReadData []) s).1 = 0
  ∧ (sbus_input 12 1000 (ReadData []) s).2 = true.
Proof. repeat split. Qed.

(** C8. Every call of [sbus_input] keeps the accumulation count within
    0..25: the read asks for, and returns, at most 25 minus the count; the
    decoder is called only when exactly 25 bytes are held, and the count is
    0 after it; between calls the count stays below 25. *)
Theorem sbus_input_count_invariant (n : nat) (now : Z) (dev : device) (s : sbus) :
  0 ≤ partial_frame_count s ≤ 25 →
  let s1 := sbus_input_gap now s in
  let fetched := sbus_input_fetch now dev s1 in
  let s' := (sbus_input n now dev s).1 in
  0 ≤ partial_frame_count s1 ≤ 25
  ∧ (read dev (frame s1) (Z.to_nat (partial_frame_count s1))
          (wrap32 (SBUS_FRAME_SIZE - partial_frame_count s1))).1
    ≤ 25 - partial_frame_count s1
  ∧ partial_frame_count s1 ≤ partial_frame_count fetched.1 ≤ 25
  ∧ (fetched.2 = true →
     partial_frame_count fetched.1 = 25
     ∧ s' = set_partial_frame_count 0 (sbus_decode n now fetched.1)
     ∧ partial_frame_count s' = 0)
  ∧ (fetched.2 = false → s' = fetched.1)
  ∧ 0 ≤ partial_frame_count s' ≤ 25
  ∧ (partial_frame_count s < 25 → partial_frame_count s' < 25)
  ∧ length (frame s') = length (frame s).
Proof.
  intros Hp s1 fetched s'.
  pose proof (sbus_input_gap_count now s Hp) as (Hg & Hgf & _). fold s1 in Hg, Hgf.
  pose proof (sbus_input_fetch_count now dev s1 ltac:(lia))
    as (Hc & Hfull & Hfull' & Hlen & _).
  cbv zeta in Hc, Hfull, Hfull', Hlen. fold fetched in Hc, Hfull, Hfull', Hlen.
  assert (s' = if fetched.2
               then set_partial_frame_count 0 (sbus_decode n now fetched.1)
               else fetched.1) as Hs'.
  { unfold s'. by rewrite sbus_input_unfold. }
  split; [lia|]. split.
  { unfold SBUS_FRAME_SIZE. rewrite wrap32_small by lia.
    apply read_bounded. lia. }
  split; [lia|]. split.
  { intros Ht. rewrite Ht in Hs'. split; [by apply Hfull|]. split; [done|].
    by rewrite Hs'. }
  split; [intros Hf; by rewrite Hf in Hs'|].
  destruct (fetched.2) eqn:Ef; rewrite Hs'; simpl.
  - rewrite (proj1 (sbus_decode_keeps _ _ _)). repeat split; (lia || congruence).
  - repeat split; (lia || congruence).
Qed.

Lemma sbus_input_count_invariant_witness :
  let s := mk_sbus 1000 0 (scenario_frame 0) 24 0
                   (mk_sys_state 0 (replicate 12 0) 0 false) in
  0 ≤ partial_frame_count s ≤ 25
  ∧ (sbus_input_fetch 1500 (ReadData [0; 0x0f; 1; 2]) (sbus_input_gap 1500 s)).2
    = true
  ∧ partial_frame_count
      (sbus_input_fetch 1500 (ReadData [0; 0x0f; 1; 2]) (sbus_input_gap 1500 s)).1
    = 25
  ∧ partial_frame_count (sbus_input 12 1500 (ReadData [0; 0x0f; 1; 2]) s).1 = 0.
Proof.
  intros s.
  assert (0 ≤ partial_frame_count s ≤ 25) as Hp by (simpl; lia).
  split; [exact Hp|].
  destruct (sbus_input_count_invariant 12 1500 (ReadData [0; 0x0f; 1; 2]) s Hp)
    as (_ & _ & _ & Hfull & _).
  split; [reflexivity|]. split; apply Hfull; reflexivity.
Defined.

(** * Further properties of the decoder *)

(** ** The decoder matrix on arbitrary frames *)

(** Digits of [w] bits, least significant first, and the number they
    spell. *)
Lemma digits_bound (w : Z) (l : list Z) :
  0 < w → Forall (λ v, 0 ≤ v < 2 ^ w) l →
  0 ≤ foldr (λ v acc, v + 2 ^ w * acc) 0 l < 2 ^ (w * Z.of_nat (length l)).
Proof.
  intros Hw Hl. induction Hl as [|v l Hv _ IH]; cbn [foldr length].
  - rewrite Z.mul_0_r. simpl. lia.
  - replace (w * Z.of_nat (S (length l))) with (w + w * Z.of_nat (length l)) by lia.
    rewrite Z.pow_add_r by lia.
    assert (0 < 2 ^ w) by (apply Z.pow_pos_nonneg; lia). nia.
Qed.

Lemma digits_slice (w : Z) (l : list Z) (i : nat) :
  0 < w → Forall (λ v, 0 ≤ v < 2 ^ w) l → (i < length l)%nat →
  Z.shiftr (foldr (λ v acc, v + 2 ^ w * acc) 0 l) (w * Z.of_nat i) mod 2 ^ w
  = l !!! i.
Proof.
  intros Hw Hl. revert i.
  assert (0 < 2 ^ w) as Hpow by (apply Z.pow_pos_nonneg; lia).
  induction Hl as [|v l Hv _ IH]; intros i Hi; cbn [length] in Hi; [lia|].
  cbn [foldr]. destruct i as [|i].
  - rewrite Z.mul_0_r, Z.shiftr_0_r. cbn [lookup_total list_lookup_total].
    rewrite (Z.mul_comm (2 ^ w)), Z.mod_add by lia. by apply Z.mod_small.
  - cbn [lookup_total list_lookup_total].
    change (list_lookup_total i l) with (l !!! i).
    rewrite <- IH by lia.
    replace (w * Z.of_nat (S i)) with (w + w * Z.of_nat i) by lia.
    rewrite <- Z.shiftr_shiftr by lia. f_equal. f_equal.
    rewrite Z.shiftr_div_pow2 by lia.
    rewrite (Z.mul_comm (2 ^ w)), Z.div_add by lia.
    rewrite Z.div_small by done. lia.
Qed.

(** Cutting a number into 11-bit slices and packing them again. *)
Lemma sbus_pack_slices (N : Z) (a k : nat) :
  sbus_pack (map (λ i : nat, Z.shiftr N (11 * Z.of_nat i) mod 2 ^ 11) (seq a k))
  = Z.shiftr N (11 * Z.of_nat a) mod 2 ^ (11 * Z.of_nat k).
Proof.
  revert a. induction k as [|k IH]; intros a.
  - simpl. by rewrite Z.mod_1_r.
  - cbn [seq map sbus_pack foldr].
    change (foldr _ 0 (map ?g (seq (S a) k))) with (sbus_pack (map g (seq (S a) k))).
    rewrite IH.
    replace (11 * Z.of_nat (S k)) with (11 + 11 * Z.of_nat k) by lia.
    rewrite Z.pow_add_r by lia.
    assert (0 < 2 ^ (11 * Z.of_nat k)) by (apply Z.pow_pos_nonneg; lia).
    rewrite Z.rem_mul_r by lia.
    replace (11 * Z.of_nat (S a)) with (11 * Z.of_nat a + 11) by lia.
    rewrite <- Z.shiftr_shiftr by lia.
    by rewrite (Z.shiftr_div_pow2 _ 11) by lia.
Qed.

Lemma sbus_field_bound (f : list Z) :
  is_frame f → 0 ≤ sbus_field f < 2 ^ 176.
Proof.
  intros [Hlen Hbytes].
  pose proof (digits_bound 8 (take 22 (drop 1 f)) ltac:(lia)) as Hb.
  rewrite length_take, length_drop, Hlen in Hb.
  apply Hb. apply Forall_take, Forall_drop.
  eapply Forall_impl; [exact Hbytes|]. intros b Hbyte. simpl in *. lia.
Qed.

Lemma sbus_field_byte (f : list Z) (b : Z) :
  is_frame f → 0 ≤ b < 22 →
  f !!! Z.to_nat (1 + b) = Z.shiftr (sbus_field f) (8 * b) mod 256.
Proof.
  intros [Hlen Hbytes] Hb. unfold sbus_field.
  rewrite <- (Z2Nat.id b) at 2 by lia.
  change 256 with (2 ^ 8). rewrite digits_slice.
  - rewrite !list_lookup_total_alt, lookup_take, decide_True by lia.
    rewrite lookup_drop. do 2 f_equal. lia.
  - lia.
  - apply Forall_take, Forall_drop.
    eapply Forall_impl; [exact Hbytes|]. intros x Hx. simpl in *. lia.
  - rewrite length_take, length_drop, Hlen. lia.
Qed.

(** The raw value of a channel depends on bytes 1..22 of the frame only. *)
Lemma sbus_value_data_only (f g : list Z) (i : nat) :
  (i < 18)%nat →
  (∀ b, 0 ≤ b < 22 → f !!! Z.to_nat (1 + b) = g !!! Z.to_nat (1 + b)) →
  sbus_value f i = sbus_value g i.
Proof.
  intros Hi Hdata. unfold sbus_value.
  destruct (sbus_decoder_rows i Hi) as (row & Hrow & ->).
  pose proof (proj1 (Forall_lookup _ _) sbus_decoder_in_field i row Hrow) as Hfield.
  cbv beta in Hfield. unfold entries_in_field in Hfield.
  rewrite forallb_forall in Hfield.
  enough (∀ acc,
            fold_left
              (λ value decode,
                 if bool_decide (mask decode ≠ 0)
                 then Z.lor value (sbus_piece f decode) else value) row acc
            = fold_left
                (λ value decode,
                   if bool_decide (mask decode ≠ 0)
                   then Z.lor value (sbus_piece g decode) else value) row acc)
    as Hgen by apply Hgen.
  clear Hrow.
  induction row as [|p row IH]; intros acc; [done|]. cbn [fold_left].
  assert (sbus_piece f p = sbus_piece g p) as ->.
  { unfold sbus_piece. rewrite Hdata; [done|].
    specialize (Hfield p ltac:(by left)). lia. }
  apply IH. intros q Hq. apply Hfield. by right.
Qed.

Lemma sbus_slices_range (f : list Z) :
  length (sbus_slices f) = 16%nat
  ∧ Forall (λ v, 0 ≤ v < 2 ^ 11) (sbus_slices f).
Proof.
  split; [reflexivity|]. unfold sbus_slices. apply Forall_forall.
  intros v Hv. apply list_elem_of_fmap in Hv as (i & -> & _).
  apply Z.mod_pos_bound. done.
Qed.

Lemma sbus_pack_field (f : list Z) :
  is_frame f → sbus_pack (sbus_slices f) = sbus_field f.
Proof.
  intros Hf. unfold sbus_slices. rewrite sbus_pack_slices.
  rewrite Z.shiftr_0_r. apply Z.mod_small, (sbus_field_bound f Hf).
Qed.

Lemma sbus_encode_slices_data (f : list Z) (b : Z) :
  is_frame f → 0 ≤ b < 22 →
  sbus_encode (sbus_slices f) !!! Z.to_nat (1 + b) = f !!! Z.to_nat (1 + b).
Proof.
  intros Hf Hb.
  by rewrite sbus_encode_data, sbus_pack_field, <- sbus_field_byte.
Qed.

(** The raw value of a channel is a slice of the payload. *)
Lemma sbus_value_field (f : list Z) (i : nat) :
  is_frame f → (i < 16)%nat →
  sbus_value f i = Z.shiftr (sbus_field f) (11 * Z.of_nat i) mod 2 ^ 11.
Proof.
  intros Hf Hi.
  destruct (sbus_slices_range f) as [Hlen Hrange].
  rewrite <- (sbus_value_data_only (sbus_encode (sbus_slices f)) f i)
    by (lia || by intros; apply sbus_encode_slices_data).
  rewrite sbus_value_encode by done.
  unfold sbus_slices.
  by rewrite list_lookup_total_alt, list_lookup_fmap, lookup_seq_lt by lia.
Qed.

Lemma sbus_raws_slices (f : list Z) : is_frame f → sbus_raws f = sbus_slices f.
Proof.
  intros Hf. unfold sbus_raws, sbus_slices. apply map_ext_in.
  intros i Hi. apply in_seq in Hi. apply sbus_value_field; [done|lia].
Qed.

(** X1. On every frame of 25 bytes, the raw value that the decoder matrix
    extracts for one of the channels 0..15 is the 11-bit slice, at bit
    [11 * i], of the little-endian number that bytes 1..22 spell; the value
    stored for the channel is half of it plus 998. *)
Theorem sbus_value_slice (n : nat) (f : list Z) (i : nat) :
  is_frame f → (i < 16)%nat →
  sbus_value f i = Z.shiftr (sbus_field f) (11 * Z.of_nat i) mod 2 ^ 11
  ∧ (∀ data, (i < chancount n)%nat → (i < length data)%nat →
             sbus_matrix_channels n f data !! i
             = Some ((Z.shiftr (sbus_field f) (11 * Z.of_nat i) mod 2 ^ 11) / 2
                     + 998)).
Proof.
  intros Hf Hi. split; [by apply sbus_value_field|].
  intros data Hn Hlen.
  by rewrite sbus_matrix_channels_lookup, sbus_value_field by done.
Qed.

Lemma sbus_value_slice_witness :
  is_frame (scenario_frame 0x03)
  ∧ sbus_field (scenario_frame 0x03) = 1024
  ∧ sbus_value (scenario_frame 0x03) 0
    = Z.shiftr (sbus_field (scenario_frame 0x03)) 0 mod 2 ^ 11.
Proof.
  assert (is_frame (scenario_frame 0x03)) as Hf.
  { split; [reflexivity|]. eapply bool_decide_unpack. vm_compute. exact I. }
  split; [exact Hf|]. split; [reflexivity|].
  apply (sbus_value_slice 12 (scenario_frame 0x03) 0 Hf). lia.
Defined.

(** X2. The matrix loses nothing of the payload: encoding the sixteen raw
    values decoded from a frame gives back bytes 1..22 of the frame, and the
    whole frame when its markers are right and its flag byte is clear. Two
    frames with the same raw values therefore have the same bytes 1..22. *)
Theorem sbus_encode_raws (f : list Z) :
  is_frame f →
  (∀ j, (1 ≤ j ≤ 22)%nat → sbus_encode (sbus_raws f) !!! j = f !!! j)
  ∧ (f !!! 0%nat = 0x0f → f !!! 23%nat = 0 → f !!! 24%nat = 0 →
     sbus_encode (sbus_raws f) = f)
  ∧ (∀ g, is_frame g → sbus_raws g = sbus_raws f →
          ∀ j, (1 ≤ j ≤ 22)%nat → g !!! j = f !!! j).
Proof.
  intros Hf.
  assert (∀ h, is_frame h →
            ∀ j, (1 ≤ j ≤ 22)%nat → sbus_encode (sbus_raws h) !!! j = h !!! j)
    as Hdata.
  { intros h Hh j Hj. rewrite sbus_raws_slices by done.
    replace j with (Z.to_nat (1 + Z.of_nat (j - 1))) by lia.
    apply sbus_encode_slices_data; [done|lia]. }
  split; [by apply Hdata|]. split.
  - intros H0 H23 H24. apply list_eq. intros j.
    destruct (decide (j < 25)%nat) as [Hj|Hj].
    + rewrite !list_lookup_lookup_total_lt
        by (rewrite ?(proj1 Hf); (done || (simpl; lia))).
      f_equal.
      destruct (decide (1 ≤ j ≤ 22)%nat) as [Hd|Hd]; [by apply Hdata|].
      assert (j = 0 ∨ j = 23 ∨ j = 24)%nat as [->|[->| ->]] by lia.
      * by rewrite H0.
      * by rewrite H23.
      * by rewrite H24.
    + rewrite !(proj2 (lookup_ge_None _ _))
        by (rewrite ?(proj1 Hf); (simpl; lia)). done.
  - intros g Hg Heq j Hj.
    by rewrite <- (Hdata g Hg j Hj), Heq, (Hdata f Hf j Hj).
Qed.

Lemma sbus_encode_raws_witness :
  is_frame (uniform_frame 1811)
  ∧ sbus_encode (sbus_raws (uniform_frame 1811)) = uniform_frame 1811.
Proof.
  assert (is_frame (uniform_frame 1811)) as Hf.
  { split; [reflexivity|]. eapply bool_decide_unpack. vm_compute. exact I. }
  split; [exact Hf|].
  destruct (sbus_encode_raws (uniform_frame 1811) Hf) as (_ & Hwhole & _).
  apply Hwhole; reflexivity.
Defined.

(** X3. Every channel value that a successful decode stores, the switch
    channels included, lies in [998, 2998]: it fits an unsigned 16-bit
    array element without truncation. *)
Theorem sbus_decode_fits (n : nat) (t : Z) (s : sbus) (i : nat) (v : Z) :
  frame_valid (frame s) = true → (i < chancount n)%nat →
  rc_channel_data (system_state (sbus_decode n t s)) !! i = Some v →
  998 ≤ v ≤ 2998 ∧ v < 2 ^ 16.
Proof.
  intros Hvalid Hi Hv.
  rewrite (sbus_decode_lookup n t s i v Hvalid Hi Hv).
  pose proof (chancount_le n) as Hle.
  enough (998 ≤ sbus_channel (chancount n) (frame s) i ≤ 2998) by (simpl; lia).
  destruct (decide (i = 17%nat)) as [->|H17].
  - unfold sbus_channel.
    replace (17 <? chancount n)%nat with true by (symmetry; apply Nat.ltb_lt; lia).
    cbn [andb Nat.eqb]. rewrite switch_18_value. destruct (Z.testbit _ 1); lia.
  - pose proof (sbus_channel_range n (frame s) i Hi H17). lia.
Qed.

Lemma sbus_decode_fits_witness :
  frame_valid (frame (holding 18 (scenario_frame 0x03))) = true
  ∧ rc_channel_data
      (system_state (sbus_decode 18 1000 (holding 18 (scenario_frame 0x03))))
    !! 17%nat = Some 2998
  ∧ 998 ≤ 2998 ≤ 2998 ∧ 2998 < 2 ^ 16.
Proof.
  split; [reflexivity|]. split; [reflexivity|].
  apply (sbus_decode_fits 18 1000 (holding 18 (scenario_frame 0x03)) 17 2998);
    [reflexivity | vm_compute; lia | reflexivity].
Defined.

(** * Further properties of the synchroniser *)

Lemma sbus_input_gap_keeps (now : Z) (s : sbus) :
  frame (sbus_input_gap now s) = frame s
  ∧ last_frame_time (sbus_input_gap now s) = last_frame_time s
  ∧ last_rx_time (sbus_input_gap now s) = last_rx_time s
  ∧ system_state (sbus_input_gap now s) = system_state s.
Proof. unfold sbus_input_gap. by repeat case_bool_decide. Qed.

Lemma sbus_input_gap_drops (now : Z) (s : sbus) :
  sbus_input_gap now s
  = if bool_decide (3000 < wrap64 (now - last_rx_time s))
       && bool_decide (0 < partial_frame_count s)
    then set_partial_frame_count 0
           (set_sbus_frame_drops (wrap32 (sbus_frame_drops s + 1)) s)
    else s.
Proof. unfold sbus_input_gap. by repeat case_bool_decide. Qed.

Lemma sbus_input_fetch_nothing (now : Z) (dev : device) (s : sbus) :
  dev = ReadError ∨ dev = ReadData [] → sbus_input_fetch now dev s = (s, false).
Proof.
  intros [-> | ->]; [apply sbus_input_fetch_error|].
  unfold sbus_input_fetch, read. rewrite take_nil. simpl. by destruct s.
Qed.

(** X4. A call whose read fails or finds no byte does nothing beyond the
    3ms rule: the time of the last byte is not refreshed, the frame buffer,
    the good-frame time and the channel state keep their values, and within
    3ms of the last byte the bytes held so far are kept as they are. The
    lock status is computed all the same. *)
Theorem sbus_input_no_bytes (n : nat) (now : Z) (dev : device) (s : sbus) :
  dev = ReadError ∨ dev = ReadData [] →
  let s' := (sbus_input n now dev s).1 in
  s' = sbus_input_gap now s
  ∧ last_rx_time s' = last_rx_time s
  ∧ frame s' = frame s
  ∧ system_state s' = system_state s
  ∧ last_frame_time s' = last_frame_time s
  ∧ (wrap64 (now - last_rx_time s) ≤ 3000 → s' = s)
  ∧ (sbus_input n now dev s).2
    = bool_decide (wrap64 (now - last_frame_time s) < 200000).
Proof.
  intros Hdev s'. unfold s'.
  rewrite sbus_input_unfold, sbus_input_fetch_nothing by done. cbv zeta.
  cbn [fst snd].
  destruct (sbus_input_gap_keeps now s) as (Hf & Hft & Hrx & Hy).
  rewrite Hft. repeat split; try done.
  intros Hgap. apply sbus_input_gap_quiet. by right.
Qed.

Lemma sbus_input_no_bytes_witness :
  let s := mk_sbus 1000 0 (scenario_frame 0) 7 0
                   (mk_sys_state 0 (replicate 12 0) 0 false) in
  (sbus_input 12 3500 ReadError s).1 = s
  ∧ sbus_input_gap 4100 (sbus_input 12 3500 ReadError s).1
    = set_partial_frame_count 0 (set_sbus_frame_drops 1 s).
Proof.
  intros s. split; [|reflexivity].
  destruct (sbus_input_no_bytes 12 3500 ReadError s) as (_ & _ & _ & _ & _ & Hkeep & _).
  - by left.
  - apply Hkeep. vm_compute. discriminate.
Defined.

Lemma sbus_decode_drops (n : nat) (t : Z) (s : sbus) :
  sbus_frame_drops (sbus_decode n t s)
  = if bool_decide (frame s !!! 0%nat = 0x0f)
       && bool_decide (frame s !!! 24%nat = 0x00)
    then sbus_frame_drops s
    else wrap32 (sbus_frame_drops s + 1).
Proof.
  unfold sbus_decode. cbv zeta.
  repeat case_bool_decide; cbn [orb andb]; try done; by destruct (_ && _).
Qed.

(** X5. The dropped-frame counter after a call: one more for a partial
    frame abandoned after a gap of more than 3ms, and one more for a
    complete frame whose boundary markers are wrong. Both can happen in one
    call, and nothing else changes the counter. *)
Theorem sbus_input_drops (n : nat) (now : Z) (dev : device) (s : sbus) :
  0 ≤ partial_frame_count s ≤ 25 →
  0 ≤ sbus_frame_drops s < 2 ^ 32 - 2 →
  let abandoned :=
    bool_decide (3000 < wrap64 (now - last_rx_time s))
    && bool_decide (0 < partial_frame_count s) in
  let fetched := sbus_input_fetch now dev (sbus_input_gap now s) in
  let rejected :=
    fetched.2
    && negb (bool_decide (frame fetched.1 !!! 0%nat = 0x0f)
             && bool_decide (frame fetched.1 !!! 24%nat = 0x00)) in
  sbus_frame_drops (sbus_input n now dev s).1
  = sbus_frame_drops s
    + (if abandoned then 1 else 0) + (if rejected then 1 else 0).
Proof.
  intros Hp Hd abandoned fetched rejected.
  pose proof (sbus_input_gap_count now s Hp) as (Hg & _).
  pose proof (sbus_input_fetch_count now dev (sbus_input_gap now s) ltac:(lia))
    as (_ & _ & _ & _ & _ & Hfd & _).
  cbv zeta in Hfd. fold fetched in Hfd.
  assert (sbus_frame_drops (sbus_input_gap now s)
          = sbus_frame_drops s + (if abandoned then 1 else 0)) as Hgd.
  { rewrite sbus_input_gap_drops. fold abandoned.
    destruct abandoned; simpl; [|lia]. apply wrap32_small. lia. }
  rewrite sbus_input_unfold. cbv zeta. fold fetched.
  unfold rejected. destruct (fetched.2); cbn [andb fst].
  - change (sbus_frame_drops (set_partial_frame_count 0 ?x))
      with (sbus_frame_drops x).
    rewrite sbus_decode_drops, Hfd, Hgd. clearbody abandoned.
    destruct (bool_decide (frame fetched.1 !!! 0%nat = 15) && _); cbn [negb];
      [lia|].
    rewrite wrap32_small; [lia|]. destruct abandoned; lia.
  - rewrite Hfd, Hgd. lia.
Qed.

Lemma sbus_input_drops_witness :
  let s := mk_sbus 1000 0 (scenario_frame 0) 7 0
                   (mk_sys_state 0 (replicate 12 0) 0 false) in
  sbus_frame_drops (sbus_input 12 5000 (ReadData (replicate 25 0x55)) s).1 = 2.
Proof.
  intros s.
  rewrite (sbus_input_drops 12 5000 (ReadData (replicate 25 0x55)) s);
    [reflexivity | simpl; lia | simpl; lia].
Defined.

(** The channel state after a call that decodes no valid frame. *)
Lemma sbus_input_not_decoded (n : nat) (now : Z) (dev : device) (s : sbus) :
  0 ≤ partial_frame_count s ≤ 25 →
  sbus_input_decodes now dev s = false →
  let s' := (sbus_input n now dev s).1 in
  last_frame_time s' = last_frame_time s
  ∧ (system_state s' = system_state s
     ∨ system_state s' = set_rc_channels 0 (system_state s)).
Proof.
  intros Hp Hdec s'.
  split.
  { unfold s'. by rewrite sbus_input_last_frame_time, Hdec. }
  unfold s'. rewrite sbus_input_unfold. cbv zeta.
  unfold sbus_input_decodes in Hdec.
  pose proof (sbus_input_gap_count now s Hp) as (Hg & _ & _ & _ & Hgy).
  pose proof (sbus_input_fetch_count now dev (sbus_input_gap now s) ltac:(lia))
    as (_ & _ & _ & _ & _ & _ & Hfy).
  cbv zeta in Hfy.
  destruct (sbus_input_fetch now dev (sbus_input_gap now s)) as [r full].
  cbn [fst snd] in *. rewrite <- Hgy, <- Hfy.
  destruct full; [|by left]. cbn [andb] in Hdec.
  change (system_state (set_partial_frame_count 0 ?x)) with (system_state x).
  destruct (decide (markers_ok (frame r))) as [Hok|Hbad].
  - destruct (signal_lost (frame r) && failsafe (frame r)) eqn:Hfs.
    + right. by rewrite (sbus_decode_lost n now r Hok Hfs).
    + exfalso. assert (frame_valid (frame r) = true); [|congruence].
      by apply frame_valid_spec.
  - left. by rewrite sbus_decode_dropped.
Qed.

(** X6. Unless a call completes a frame that passes both checks, the
    good-frame time, the channel data, their time stamp and the report flag
    keep their values; the only change that such a call can make to the
    channel state is to set the channel count to 0. *)
Theorem sbus_input_keeps_channels (n : nat) (now : Z) (dev : device) (s : sbus) :
  0 ≤ partial_frame_count s ≤ 25 →
  sbus_input_decodes now dev s = false →
  let s' := (sbus_input n now dev s).1 in
  last_frame_time s' = last_frame_time s
  ∧ rc_channel_data (system_state s') = rc_channel_data (system_state s)
  ∧ rc_channels_timestamp (system_state s')
    = rc_channels_timestamp (system_state s)
  ∧ fmu_report_due (system_state s') = fmu_report_due (system_state s)
  ∧ (rc_channels (system_state s') = rc_channels (system_state s)
     ∨ rc_channels (system_state s') = 0).
Proof.
  intros Hp Hdec s'.
  destruct (sbus_input_not_decoded n now dev s Hp Hdec) as [Hft [Hy|Hy]];
    fold s' in Hft, Hy; rewrite Hy; repeat split; try done; first [by left | by right].
Qed.

Lemma sbus_input_keeps_channels_witness :
  let s := mk_sbus 1000 900 (replicate 25 0) 0 0
                   (mk_sys_state 12 (replicate 12 1500) 900 true) in
  let lost := ReadData (scenario_frame 0x0c) in
  sbus_input_decodes 1500 lost s = false
  ∧ rc_channel_data (system_state (sbus_input 12 1500 lost s).1)
    = replicate 12 1500
  ∧ rc_channels (system_state (sbus_input 12 1500 lost s).1) = 0
  ∧ last_frame_time (sbus_input 12 1500 lost s).1 = 900.
Proof.
  intros s lost.
  assert (sbus_input_decodes 1500 lost s = false) as Hdec by reflexivity.
  split; [exact Hdec|].
  destruct (sbus_input_keeps_channels 12 1500 lost s) as (Hft & Hdata & _);
    [simpl; lia | exact Hdec |].
  split; [exact Hdata|]. split; [reflexivity|exact Hft].
Defined.

(** ** Invariants of a session *)

Lemma sbus_decode_data_length (n : nat) (t : Z) (s : sbus) :
  length (rc_channel_data (system_state (sbus_decode n t s)))
  = length (rc_channel_data (system_state s)).
Proof.
  unfold sbus_decode. cbv zeta.
  destruct (_ || _); [done|]. destruct (_ && _); [done|]. simpl.
  by rewrite sbus_switch_channels_length, sbus_matrix_channels_length.
Qed.

Lemma sbus_input_decoded (n : nat) (now : Z) (dev : device) (s : sbus) :
  sbus_input_decodes now dev s = true →
  let fetched := sbus_input_fetch now dev (sbus_input_gap now s) in
  (sbus_input n now dev s).1
  = set_partial_frame_count 0 (sbus_decode n now fetched.1)
  ∧ decoded (chancount n) now fetched.1 (sbus_decode n now fetched.1).
Proof.
  intros Hdec fetched. rewrite sbus_input_unfold. cbv zeta. fold fetched.
  unfold sbus_input_decodes in Hdec. fold fetched in Hdec.
  destruct fetched as [r full]. cbn [fst snd] in *.
  apply andb_prop in Hdec as [-> Hvalid]. split; [done|].
  apply frame_valid_spec in Hvalid as [Hok Hfs].
  by apply sbus_decode_decoded.
Qed.

Lemma sbus_input_step (n : nat) (now : Z) (dev : device) (s : sbus) :
  0 ≤ partial_frame_count s < 25 →
  let s' := (sbus_input n now dev s).1 in
  0 ≤ partial_frame_count s' < 25
  ∧ length (frame s') = length (frame s)
  ∧ length (rc_channel_data (system_state s'))
    = length (rc_channel_data (system_state s)).
Proof.
  intros Hp s'. unfold s'. rewrite sbus_input_unfold. cbv zeta.
  pose proof (sbus_input_gap_count now s ltac:(lia)) as (Hg & Hgf & _ & _ & Hgy).
  pose proof (sbus_input_fetch_count now dev (sbus_input_gap now s) ltac:(lia))
    as (Hc & _ & Hfull & Hlen & _ & _ & Hfy).
  cbv zeta in Hc, Hfull, Hlen, Hfy.
  destruct (sbus_input_fetch now dev (sbus_input_gap now s)) as [r full].
  cbn [fst snd] in *. destruct full.
  - change (frame (set_partial_frame_count 0 ?x)) with (frame x).
    change (system_state (set_partial_frame_count 0 ?x)) with (system_state x).
    rewrite (proj1 (sbus_decode_keeps n now r)), sbus_decode_data_length.
    cbn [partial_frame_count set_partial_frame_count].
    repeat split; (lia || congruence).
  - repeat split; (lia || congruence).
Qed.

(** X7. Whatever a session brings, the accumulation count stays below 25
    between calls, the frame buffer keeps its 25 bytes and the channel
    array its length: every index that the code uses stays inside its
    array. *)
Theorem sbus_run_bounds (n : nat) (calls : list (Z * device)) (s : sbus) :
  0 ≤ partial_frame_count s < 25 →
  length (frame s) = 25%nat →
  let s' := (sbus_run n calls s).1 in
  0 ≤ partial_frame_count s' < 25
  ∧ length (frame s') = 25%nat
  ∧ length (rc_channel_data (system_state s'))
    = length (rc_channel_data (system_state s)).
Proof.
  revert s. induction calls as [|[now dev] calls IH]; intros s Hp Hlen.
  - cbn [sbus_run fst]. repeat split; (done || lia).
  - cbn [sbus_run].
    pose proof (sbus_input_step n now dev s Hp) as (Hp' & Hlen' & Hdata).
    destruct (sbus_input n now dev s) as [r l]. cbn [fst] in *.
    specialize (IH r Hp' ltac:(congruence)).
    destruct (sbus_run n calls r) as [q o]. cbn [fst] in *.
    destruct IH as (? & ? & ?). repeat split; (lia || congruence).
Qed.

Lemma sbus_run_bounds_witness :
  let calls := [(1000, ReadData (replicate 30 0x0f)); (9000, ReadError);
                (9100, ReadData (scenario_frame 0))] in
  partial_frame_count (sbus_run 12 calls (sbus_init 500 (sbus_start 12))).1 = 0
  ∧ 0 ≤ partial_frame_count
          (sbus_run 12 calls (sbus_init 500 (sbus_start 12))).1 < 25
  ∧ length (frame (sbus_run 12 calls (sbus_init 500 (sbus_start 12))).1)
    = 25%nat.
Proof.
  intros calls. split; [reflexivity|].
  destruct (sbus_run_bounds 12 calls (sbus_init 500 (sbus_start 12)))
    as (Hp & Hlen & _); [simpl; lia | reflexivity |].
  by split.
Defined.

Lemma sbus_input_stamp (n : nat) (now : Z) (dev : device) (s : sbus) :
  0 ≤ partial_frame_count s ≤ 25 →
  let s' := (sbus_input n now dev s).1 in
  (rc_channels_timestamp (system_state s) = last_frame_time s →
   rc_channels_timestamp (system_state s') = last_frame_time s')
  ∧ (fmu_report_due (system_state s) = true →
     fmu_report_due (system_state s') = true).
Proof.
  intros Hp s'. destruct (sbus_input_decodes now dev s) eqn:Hdec.
  - destruct (sbus_input_decoded n now dev s Hdec) as [Hs' Hd].
    fold s' in Hs'. rewrite Hs'.
    destruct Hd as (Hft & _ & Hts & Hdue & _).
    change (system_state (set_partial_frame_count 0 ?x)) with (system_state x).
    change (last_frame_time (set_partial_frame_count 0 ?x))
      with (last_frame_time x).
    split; intros _; congruence.
  - destruct (sbus_input_not_decoded n now dev s Hp Hdec) as [Hft [Hy|Hy]];
      fold s' in Hft, Hy; rewrite Hft, Hy; by split.
Qed.

(** X8. Two invariants of a session: if the time stamp of the channel data
    equals the good-frame time at the start, as it does after power-up, it
    does so after every call, so the lock status is always computed from
    the time stamp that is reported with the channels; and the report flag,
    once raised, is never lowered by the decoder. *)
Theorem sbus_run_stamp (n : nat) (calls : list (Z * device)) (s : sbus) :
  0 ≤ partial_frame_count s ≤ 25 →
  let s' := (sbus_run n calls s).1 in
  (rc_channels_timestamp (system_state s) = last_frame_time s →
   rc_channels_timestamp (system_state s') = last_frame_time s')
  ∧ (fmu_report_due (system_state s) = true →
     fmu_report_due (system_state s') = true).
Proof.
  revert s. induction calls as [|[now dev] calls IH]; intros s Hp.
  - by split.
  - cbn [sbus_run].
    pose proof (sbus_input_stamp n now dev s Hp) as [Hts Hdue].
    pose proof (sbus_input_keeps_length n now dev s Hp) as [_ Hp'].
    destruct (sbus_input n now dev s) as [r l]. cbn [fst] in *.
    specialize (IH r Hp').
    destruct (sbus_run n calls r) as [q o]. cbn [fst] in *.
    destruct IH as [IHts IHdue]. split; auto.
Qed.

Lemma sbus_run_stamp_witness :
  let calls := [(1000, ReadData (scenario_frame 0));
                (9000, ReadData (scenario_frame 0x0c))] in
  let s' := (sbus_run 12 calls (sbus_init 500 (sbus_start 12))).1 in
  rc_channels_timestamp (system_state s') = last_frame_time s'
  ∧ last_frame_time s' = 1000.
Proof.
  intros calls s'. split; [|reflexivity].
  apply (sbus_run_stamp 12 calls (sbus_init 500 (sbus_start 12)));
    [simpl; lia | reflexivity].
Defined.

(** ** The clock *)

Lemma wrap64_elapsed (a d : Z) : 0 ≤ d < 2 ^ 64 → wrap64 (wrap64 (a + d) - a) = d.
Proof.
  intros Hd. unfold wrap64. rewrite Zminus_mod_idemp_l.
  replace (a + d - a) with d by lia. by apply Z.mod_small.
Qed.

(** X9. The two time comparisons survive the wrap-around of the 64-bit
    clock: if [d] microseconds have passed since the last byte and [e]
    since the last good frame, the clock reading being taken modulo 2^64,
    then a partial frame is abandoned exactly when [d] exceeds 3000, and a
    call that decodes no valid frame returns locked exactly when [e] is
    below 200000. *)
Theorem sbus_input_clock_wrap (n : nat) (dev : device) (s : sbus) (d e : Z) :
  0 ≤ d < 2 ^ 64 → 0 ≤ e < 2 ^ 64 →
  sbus_input_gap (wrap64 (last_rx_time s + d)) s
  = (if bool_decide (3000 < d) && bool_decide (0 < partial_frame_count s)
     then set_partial_frame_count 0
            (set_sbus_frame_drops (wrap32 (sbus_frame_drops s + 1)) s)
     else s)
  ∧ (sbus_input_decodes (wrap64 (last_frame_time s + e)) dev s = false →
     (sbus_input n (wrap64 (last_frame_time s + e)) dev s).2
     = bool_decide (e < 200000)).
Proof.
  intros Hd He. split.
  - by rewrite sbus_input_gap_drops, wrap64_elapsed.
  - intros Hdec.
    rewrite sbus_input_locked, sbus_input_last_frame_time, Hdec.
    by rewrite wrap64_elapsed.
Qed.

Lemma sbus_input_clock_wrap_witness :
  let s := mk_sbus (2 ^ 64 - 1000) (2 ^ 64 - 1000) (scenario_frame 0) 7 0
                   (mk_sys_state 12 (replicate 12 1500) 0 true) in
  wrap64 (last_rx_time s + 2000) = 1000
  ∧ sbus_input_gap 1000 s = s
  ∧ (sbus_input 12 1000 ReadError s).2 = true.
Proof.
  intros s. split; [reflexivity|].
  destruct (sbus_input_clock_wrap 12 ReadError s 2000 2000) as [Hgap Hlock];
    [lia | lia |].
  split; [exact Hgap|]. apply Hlock. reflexivity.
Defined.

(** ** Receiving in pieces, re-initialising *)

(** X10. How a frame is cut into reads does not matter: from an empty
    buffer, 25 bytes that arrive in any number of non-empty pieces, none
    more than 3ms after the one before, leave the variables exactly as one
    call that reads all 25 bytes at the time of the last piece. *)
Theorem sbus_run_pieces_as_one (n : nat) (pieces : list (Z * list Z))
        (now : Z) (bs : list Z) (s : sbus) :
  partial_frame_count s = 0 → length (frame s) = 25%nat →
  Forall (λ c, c.2 ≠ []) ((now, bs) :: pieces) →
  length (concat (((now, bs) :: pieces).*2)) = 25%nat →
  in_time now pieces →
  (sbus_run n (calls_of ((now, bs) :: pieces)) s).1
  = (sbus_input n (arrival now pieces)
       (ReadData (concat (((now, bs) :: pieces).*2))) s).1.
Proof.
  intros Hp Hlen Hne Hsum Htime.
  rewrite sbus_run_pieces by (rewrite ?Hp; (done || lia || by left)).
  set (whole := concat (((now, bs) :: pieces).*2)) in *.
  pose proof (sbus_run_pieces n [] (arrival now pieces) whole s) as Hone.
  cbn [calls_of map sbus_run fmap list_fmap concat arrival fst snd] in Hone.
  rewrite app_nil_r in Hone.
  destruct (sbus_input n (arrival now pieces) (ReadData whole) s) as [r l].
  cbn [fst] in *. rewrite Hone; [done|done|lia| |lia|by left|done].
  repeat constructor. cbn [snd]. intros ->. done.
Qed.

Lemma sbus_run_pieces_as_one_witness :
  let s := sbus_init 500 (sbus_start 12) in
  let pieces := [(1300, take 10 (drop 3 (scenario_frame 0)));
                 (2900, drop 13 (scenario_frame 0))] in
  (sbus_run 12 (calls_of ((1000, take 3 (scenario_frame 0)) :: pieces)) s).1
  = (sbus_input 12 2900 (ReadData (scenario_frame 0)) s).1.
Proof.
  intros s pieces.
  apply (sbus_run_pieces_as_one 12 pieces 1000 (take 3 (scenario_frame 0)) s).
  - reflexivity.
  - reflexivity.
  - repeat constructor; discriminate.
  - reflexivity.
  - repeat split; vm_compute; discriminate.
Defined.

(** X11. [sbus_init]: the device is opened only when no descriptor is
    held, and a failed open leaves the decoder as it was. When a descriptor
    is returned, the bytes held so far are discarded without counting a
    dropped frame, also in the next call and however late it comes, and new
    bytes are stored from offset 0; the drop counter, the good-frame time
    (and with it the lock status) and the channel state are not reset. *)
Theorem sbus_init_device_restart (n : nat) (fd opened t0 : Z) (s : sbus) :
  let r := sbus_init_device fd opened t0 s in
  (0 ≤ fd → r.1 = fd)
  ∧ (r.1 < 0 ↔ fd < 0 ∧ opened < 0)
  ∧ (r.1 < 0 → r.2 = s)
  ∧ (0 ≤ r.1 →
     partial_frame_count r.2 = 0
     ∧ last_rx_time r.2 = t0
     ∧ sbus_frame_drops r.2 = sbus_frame_drops s
     ∧ last_frame_time r.2 = last_frame_time s
     ∧ system_state r.2 = system_state s
     ∧ (∀ now, sbus_input_gap now r.2 = r.2)
     ∧ (∀ now pending,
          frame (sbus_input_fetch now (ReadData pending)
                   (sbus_input_gap now r.2)).1
          = list_inserts 0 (take 25 pending) (frame s))
     ∧ (∀ now dev,
          sbus_input_decodes now dev r.2 = false →
          (sbus_input n now dev r.2).2
          = bool_decide (wrap64 (now - last_frame_time s) < 200000))).
Proof.
  intros r. unfold r, sbus_init_device.
  destruct (Z.ltb_spec fd 0) as [Hfd|Hfd];
    [destruct (Z.leb_spec 0 opened) as [Ho|Ho]|
     destruct (Z.leb_spec 0 fd) as [_|?]; [|lia]];
    cbn [fst snd]; (split; [intros; lia|]); (split; [lia|]);
    (split; [intros; (done || lia)|]); intros Hr; try lia.
  all: assert (∀ now, sbus_input_gap now (sbus_init t0 s) = sbus_init t0 s)
         as Hquiet by (by intros now; apply sbus_input_gap_idle).
  all: repeat split; try done.
  all: try (intros now pending; rewrite Hquiet;
            rewrite sbus_input_fetch_data by (simpl; lia); cbv zeta;
            change (Z.to_nat (25 - partial_frame_count (sbus_init t0 s)))
              with 25%nat;
            case_bool_decide as Hnil; cbn [fst frame]; [by rewrite Hnil|done]).
  all: intros now dev Hdec;
       by rewrite sbus_input_locked, sbus_input_last_frame_time, Hdec.
Qed.

(** X13. End to end: when no byte is held and one call reads a whole frame
    that the synthetic encoder made from sixteen 11-bit values, the call
    returns locked, the accumulation count is 0 again, the channel count is
    set and the report flag raised, the channel data carry the time of the
    call, and every channel that the matrix decodes holds
    [value / 2 + 998]. *)
Theorem sbus_input_round_trip (n : nat) (values : list Z) (now : Z) (s : sbus)
        (i : nat) :
  partial_frame_count s = 0 → length (frame s) = 25%nat →
  length values = 16%nat → Forall (λ v, 0 ≤ v ≤ 2047) values →
  (i < chancount n)%nat → (i < 16)%nat →
  (i < length (rc_channel_data (system_state s)))%nat →
  let r := sbus_input n now (ReadData (sbus_encode values)) s in
  r.2 = true
  ∧ partial_frame_count r.1 = 0
  ∧ rc_channels (system_state r.1) = Z.of_nat (chancount n)
  ∧ rc_channels_timestamp (system_state r.1) = now
  ∧ fmu_report_due (system_state r.1) = true
  ∧ rc_channel_data (system_state r.1) !! i = Some (values !!! i / 2 + 998).
Proof.
  intros Hp Hlen Hvalues Hrange Hi H16 Hdata r.
  pose proof (sbus_run_pieces n [] now (sbus_encode values) s) as Hone.
  cbn [calls_of map sbus_run fmap list_fmap concat arrival fst snd] in Hone.
  rewrite app_nil_r, Hp in Hone. cbn [Z.to_nat take app] in Hone.
  assert (r.1 = set_partial_frame_count 0
                  (sbus_decode n now
                     (mk_sbus now (last_frame_time s) (sbus_encode values) 25
                              (sbus_frame_drops s) (system_state s)))) as Hr.
  { unfold r. destruct (sbus_input n now _ s) as [q l]. cbn [fst] in *.
    apply Hone; [done|lia| |reflexivity|by left|done].
    repeat constructor. cbn [snd]. discriminate. }
  set (held := mk_sbus _ _ _ _ _ _) in Hr.
  destruct (sbus_encode_markers values) as [Hok Hfs].
  pose proof (sbus_decode_decoded n now held Hok Hfs)
    as (Hft & Hcount & Hts & Hdue & _ & Hlookup & _).
  assert (r.2 = true) as Hlocked.
  { unfold r. rewrite sbus_input_locked. fold r. rewrite Hr.
    change (last_frame_time (set_partial_frame_count 0 ?x))
      with (last_frame_time x).
    rewrite Hft. unfold wrap64. by rewrite Z.sub_diag. }
  rewrite Hr.
  change (system_state (set_partial_frame_count 0 ?x)) with (system_state x).
  repeat split; try done.
  rewrite (Hlookup i Hi Hdata). f_equal. unfold sbus_channel.
  destruct (Nat.eqb_spec i 16); [lia|]. destruct (Nat.eqb_spec i 17); [lia|].
  rewrite !andb_false_r. cbn [frame held]. rewrite sbus_value_encode; [done..|].
  eapply Forall_impl; [exact Hrange|]. intros v Hv. simpl in Hv. lia.
Qed.

Lemma sbus_input_round_trip_witness :
  let values := [1024; 172; 1811; 992; 2047; 0; 1; 2046;
                 1000; 1001; 1002; 1003; 1004; 1005; 1006; 1007] in
  let r := sbus_input 12 1000 (ReadData (sbus_encode values))
                      (sbus_init 500 (sbus_start 12)) in
  r.2 = true ∧ rc_channel_data (system_state r.1) !! 2%nat = Some (1811 / 2 + 998).
Proof.
  intros values r.
  destruct (sbus_input_round_trip 12 values 1000 (sbus_init 500 (sbus_start 12)) 2)
    as (Hlocked & _ & _ & _ & _ & Hdata).
  - reflexivity.
  - reflexivity.
  - reflexivity.
  - unfold values. repeat (constructor; [lia|]). constructor.
  - vm_compute; lia.
  - lia.
  - vm_compute; lia.
  - split; [exact Hlocked|exact Hdata].
Defined.
